(** * AI Product Description Generator: a shallow embedding of [app.py]

    The Flask application of the repository has one source file.  Its
    logic is the tone table [TONE_STYLES], the prompt construction and
    response extraction of [generate_product_description], and the
    validation / error translation of the route handler [index].

    Python [str] values are modelled as lists of Unicode code points, so
    that [str.strip], [str.split] and [str.join] can be written out with
    the behaviour CPython gives them.  Effects (flash messages, log
    records, calls to the chat-completion endpoint, raised exceptions)
    are threaded through a small state-and-exception monad. *)

From Stdlib Require Import String Ascii NArith QArith.
From stdpp Require Import gmap list.

Local Open Scope N_scope.
Local Open Scope list_scope.

(** ** Python strings *)

Module PyStr.

(** A [str] is a sequence of code points. *)
Definition pystr : Type := list N.

(** ASCII literals of the source are written [py "..."]. *)
Fixpoint py (s : string) : pystr :=
  match s with
  | EmptyString => []
  | String a s' => N_of_ascii a :: py s'
  end.
Arguments py s%_string.

(** The characters the source names explicitly. *)
Definition comma : N := 44.
Definition newline : N := 10.
Definition en_dash : N := 8211.

(** [str.isspace] on one code point: the table of
    [_PyUnicode_IsWhitespace] (U+0009..U+000D, U+001C..U+0020, U+0085,
    U+00A0, U+1680, U+2000..U+200A, U+2028, U+2029, U+202F, U+205F,
    U+3000). *)
Definition isspace (c : N) : bool :=
  ((9 <=? c) && (c <=? 13)) || ((28 <=? c) && (c <=? 32))
  || (c =? 133) || (c =? 160) || (c =? 5760)
  || ((8192 <=? c) && (c <=? 8202))
  || (c =? 8232) || (c =? 8233) || (c =? 8239) || (c =? 8287)
  || (c =? 12288).

(** [s.lstrip()], [s.rstrip()], [s.strip()] with no argument. *)
Fixpoint lstrip (s : pystr) : pystr :=
  match s with
  | [] => []
  | c :: s' => if isspace c then lstrip s' else s
  end.

Definition rstrip (s : pystr) : pystr := rev (lstrip (rev s)).

Definition strip (s : pystr) : pystr := rstrip (lstrip s).

(** Truth value of a [str]: non-empty. *)
Definition truthy (s : pystr) : bool :=
  match s with [] => false | _ :: _ => true end.

(** [s.split(sep)] for a one-character separator: the result is never
    empty, and [''.split(',')] is [['']]. *)
Fixpoint split (sep : N) (s : pystr) : list pystr :=
  match s with
  | [] => [[]]
  | c :: s' =>
      if c =? sep then [] :: split sep s'
      else match split sep s' with
           | [] => [[c]]
           | seg :: segs => (c :: seg) :: segs
           end
  end.

(** [sep.join(parts)]. *)
Fixpoint join (sep : pystr) (parts : list pystr) : pystr :=
  match parts with
  | [] => []
  | [p] => p
  | p :: rest => p ++ sep ++ join sep rest
  end.

(** A string made of whitespace only (the empty string included). *)
Definition blank (s : pystr) : Prop := Forall (fun c => isspace c = true) s.

End PyStr.

Import PyStr.

(** ** Tone configuration *)

(** One entry of [TONE_STYLES]: the inner dictionary has exactly the keys
    ["label"] and ["instruction"]. *)
Record ToneDefinition : Type := mkTone {
  label : pystr;
  instruction : pystr
}.

Module Tones.

Definition casual : ToneDefinition :=
  {| label := py "Casual";
     instruction :=
       py "Write in a friendly, conversational tone, like you're talking to a friend. "
       ++ py "Use simple language and a relaxed style." |}.

Definition professional : ToneDefinition :=
  {| label := py "Professional";
     instruction :=
       py "Write in a clear, concise, and professional tone suitable for a corporate audience. "
       ++ py "Avoid slang and keep it polished." |}.

Definition enthusiastic : ToneDefinition :=
  {| label := py "Enthusiastic";
     instruction :=
       py "Write in an energetic and upbeat tone that builds excitement. "
       ++ py "Use strong, positive language that makes the product feel irresistible." |}.

Definition technical : ToneDefinition :=
  {| label := py "Technical";
     instruction :=
       py "Write in a technical, detail-oriented tone. "
       ++ py "Emphasize specifications, performance, and measurable benefits." |}.

Definition luxury : ToneDefinition :=
  {| label := py "Luxury";
     instruction :=
       py "Write in a premium, luxurious tone. "
       ++ py "Highlight exclusivity, craftsmanship, and high-end lifestyle benefits." |}.

End Tones.

(** The module-level dictionary [TONE_STYLES]. *)
Definition TONE_STYLES : gmap pystr ToneDefinition :=
  <[ py "casual" := Tones.casual ]>
  (<[ py "professional" := Tones.professional ]>
  (<[ py "enthusiastic" := Tones.enthusiastic ]>
  (<[ py "technical" := Tones.technical ]>
  (<[ py "luxury" := Tones.luxury ]> ∅)))).

(** The identifiers the table is keyed by. *)
Definition tone_keys : list pystr :=
  [py "casual"; py "professional"; py "enthusiastic"; py "technical"; py "luxury"].

(** ** Exceptions, the outside world and the effect monad *)

(** What the chat-completion endpoint can fail with. *)
Inductive ApiFailure : Type :=
| NetworkFailure
| AuthFailure
| RequestTimeout
| ProviderError.

(** Instances of Python's [Exception], the class the handler of [index]
    catches: the three the interpreter raises for a failed subscript or
    attribute access, the failures of the client library, which carry
    the provider's detail text, and any other subclass, by class name
    and message.  (Interpreter exits such as [KeyboardInterrupt] are not
    instances of [Exception] and are outside the model.) *)
Inductive exn : Type :=
| KeyError (key : pystr)
| IndexError
| AttributeError
| ApiError (kind : ApiFailure) (detail : pystr)
| OtherError (class_name detail : pystr).

(** The request handed to [client.chat.completions.create]. *)
Record ChatRequest : Type := mkChatRequest {
  model : pystr;
  messages : list (pystr * pystr);   (* role, content *)
  temperature : Q;
  max_tokens : N
}.

(** The response object: [response.choices[i].message.content]; the
    content of a message is a [str] or [None]. *)
Record ChatMessage : Type := mkChatMessage { content : option pystr }.
Record Choice : Type := mkChoice { message : ChatMessage }.
Record ChatCompletion : Type := mkChatCompletion { choices : list Choice }.

(** A record written by [logging.exception]: the format string, its
    argument and the exception whose traceback is attached. *)
Record LogRecord : Type := mkLogRecord {
  log_format : pystr;
  log_arg : exn;
  log_exc_info : exn
}.

(** The effects a request handler has on its surroundings. *)
Record World : Type := mkWorld {
  flashes : list (pystr * pystr);     (* message, category; oldest first *)
  log_records : list LogRecord;       (* oldest first *)
  api_calls : list ChatRequest        (* oldest first *)
}.

Definition empty_world : World :=
  {| flashes := []; log_records := []; api_calls := [] |}.

Inductive Outcome (A : Type) : Type :=
| Returns (a : A)
| Raises (e : exn).
Arguments Returns {A} a.
Arguments Raises {A} e.

(** Computations that read and extend the world and may raise. *)
Definition M (A : Type) : Type := World -> Outcome A * World.

Definition raise {A} (e : exn) : M A := fun w => (Raises e, w).

#[export] Instance M_ret : MRet M := fun A a w => (Returns a, w).

#[export] Instance M_bind : MBind M := fun A B k m w =>
  match m w with
  | (Returns a, w') => k a w'
  | (Raises e, w') => (Raises e, w')
  end.

(** [try: m  except Exception as e: h e] *)
Definition try_except {A} (m : M A) (h : exn -> M A) : M A :=
  fun w =>
    match m w with
    | (Returns a, w') => (Returns a, w')
    | (Raises e, w') => h e w'
    end.

(** The three ways the modelled code extends the world. *)
Definition with_flash (msg category : pystr) (w : World) : World :=
  {| flashes := flashes w ++ [(msg, category)];
     log_records := log_records w;
     api_calls := api_calls w |}.

Definition with_log (r : LogRecord) (w : World) : World :=
  {| flashes := flashes w;
     log_records := log_records w ++ [r];
     api_calls := api_calls w |}.

Definition with_call (req : ChatRequest) (w : World) : World :=
  {| flashes := flashes w;
     log_records := log_records w;
     api_calls := api_calls w ++ [req] |}.

(** [flash(message, category)] *)
Definition flash (msg category : pystr) : M unit :=
  fun w => (Returns tt, with_flash msg category w).

(** [logging.exception(fmt, e)] inside the handler of [e]: the record
    carries the formatted exception and its traceback. *)
Definition logging_exception (fmt : pystr) (e : exn) : M unit :=
  fun w => (Returns tt,
            with_log {| log_format := fmt; log_arg := e; log_exc_info := e |} w).

(** [d[k]]: raises [KeyError] for a missing key. *)
Definition getitem {V} (d : gmap pystr V) (k : pystr) : M V :=
  match d !! k with
  | Some v => mret v
  | None => raise (KeyError k)
  end.

(** [d.get(k, default)] *)
Definition dict_get {V} (d : gmap pystr V) (k : pystr) (dflt : V) : V :=
  default dflt (d !! k).

(** [l[i]]: raises [IndexError] out of range. *)
Definition list_index {A} (l : list A) (i : nat) : M A :=
  match l !! i with
  | Some a => mret a
  | None => raise IndexError
  end.

(** [o.strip()] where [o] may be [None]: [None] has no attribute
    [strip]. *)
Definition attr_strip (o : option pystr) : M pystr :=
  match o with
  | Some s => mret (strip s)
  | None => raise AttributeError
  end.

(** ** Prompt construction *)

(** [tone = TONE_STYLES.get(tone_key, TONE_STYLES["professional"])]: the
    default is a subscript, evaluated before [get] is called. *)
Definition lookup_tone (tone_key : pystr) : M ToneDefinition :=
  fallback ← getitem TONE_STYLES (py "professional");
  mret (dict_get TONE_STYLES tone_key fallback).

(** [[k.strip() for k in keywords.split(",") if k.strip()]] *)
Definition keyword_list (keywords : pystr) : list pystr :=
  flat_map (fun k => if truthy (strip k) then [strip k] else [])
           (split comma keywords).

(** [", ".join(keyword_list) if keyword_list else "None"] *)
Definition keyword_str (keywords : pystr) : pystr :=
  match keyword_list keywords with
  | [] => py "None"
  | kws => join (py ", ") kws
  end.

Definition system_message : pystr :=
  py "You are an expert retail copywriter specializing in writing product descriptions "
  ++ py "that increase conversions. Always write in plain text (no markdown). "
  ++ py "Write 1" ++ [en_dash] ++ py "3 short paragraphs and optionally 3" ++ [en_dash]
  ++ py "5 bullet-style phrases separated by commas "
  ++ py "for key benefits. Keep the description between 120 and 220 words.".

(** The four closing lines of the user message. *)
Definition directive_match_tone : pystr :=
  py "- Matches the tone described above" ++ [newline].
Definition directive_weave_keywords : pystr :=
  py "- Naturally weaves in the keywords without sounding forced" ++ [newline].
Definition directive_benefits : pystr :=
  py "- Focuses on benefits, not just features" ++ [newline].
Definition directive_online_shoppers : pystr :=
  py "- Speaks directly to retail customers shopping online" ++ [newline].

(** The f-string of [generate_product_description]; [kw] is the value of
    [keyword_str]. *)
Definition user_message (product_name : pystr) (tone : ToneDefinition) (kw : pystr)
  : pystr :=
  py "Product name: " ++ product_name ++ [newline]
  ++ py "Tone: " ++ label tone ++ [newline]
  ++ py "Tone Instructions: " ++ instruction tone ++ [newline]
  ++ py "Keywords to incorporate naturally: " ++ kw ++ [newline; newline]
  ++ py "Write a compelling product description that:" ++ [newline]
  ++ directive_match_tone
  ++ directive_weave_keywords
  ++ directive_benefits
  ++ directive_online_shoppers.

(** The keyword arguments of [client.chat.completions.create]. *)
Definition chat_request (product_name keywords : pystr) (tone : ToneDefinition)
  : ChatRequest :=
  {| model := py "gpt-4o-mini";
     messages := [ (py "system", system_message);
                   (py "user", user_message product_name tone (keyword_str keywords)) ];
     temperature := 8 # 10;
     max_tokens := 300 |}.

(** ** The request data and the rendered page *)

(** [request.method] and [request.form]; the form is a multi-dict, kept
    in submission order. *)
Record Request : Type := mkRequest {
  method : pystr;
  form : list (pystr * pystr)
}.

(** [form.get(key, default)]: the first value submitted under [key]. *)
Fixpoint form_get (fields : list (pystr * pystr)) (key dflt : pystr) : pystr :=
  match fields with
  | [] => dflt
  | (k, v) :: rest => if bool_decide (k = key) then v else form_get rest key dflt
  end.

(** The arguments of [render_template]. *)
Record Page : Type := mkPage {
  template : pystr;
  tones : gmap pystr ToneDefinition;
  generated_text : option pystr;
  product_name : pystr;
  keywords : pystr;
  selected_tone : pystr
}.

(** The three flash messages of [index]. *)
Definition MSG_ENTER_PRODUCT_NAME : pystr := py "Please enter a product name.".
Definition MSG_KEY_NOT_CONFIGURED : pystr :=
  py "OpenAI API key is not configured. Please set OPENAI_API_KEY and restart the app.".
Definition MSG_SOMETHING_WENT_WRONG : pystr :=
  py "Sorry, something went wrong while generating the description. "
  ++ py "Please try again.".
Definition LOG_GENERATION_ERROR : pystr :=
  py "Error while generating product description: %s".

Section App.

(** [os.environ.get("OPENAI_API_KEY")], read once at import. *)
Variable OPENAI_API_KEY : option pystr.

(** The remote chat-completion service: its answer to a request may
    depend on the requests it has seen before. *)
Variable endpoint : list ChatRequest -> ChatRequest -> Outcome ChatCompletion.

(** Truth value of [OPENAI_API_KEY]: [None] and [""] are false. *)
Definition key_configured : bool :=
  match OPENAI_API_KEY with
  | Some k => truthy k
  | None => false
  end.

(** [client.chat.completions.create(...)] *)
Definition chat_completions_create (req : ChatRequest) : M ChatCompletion :=
  fun w => (endpoint (api_calls w) req, with_call req w).

Definition generate_product_description (product_name keywords tone_key : pystr)
  : M pystr :=
  tone ← lookup_tone tone_key;
  response ← chat_completions_create (chat_request product_name keywords tone);
  first ← list_index (choices response) 0;
  attr_strip (content (message first)).

(** The route handler.  [generated_text] starts as [None] and is
    assigned only by a call of [generate_product_description] that
    returns. *)
Definition index (request : Request) : M Page :=
  if bool_decide (method request = py "POST") then
    let form_product_name := strip (form_get (form request) (py "product_name") []) in
    let form_keywords := strip (form_get (form request) (py "keywords") []) in
    let form_tone := form_get (form request) (py "tone") (py "professional") in
    generated ←
      (if negb (truthy form_product_name) then
         flash MSG_ENTER_PRODUCT_NAME (py "warning");; mret None
       else if negb key_configured then
         flash MSG_KEY_NOT_CONFIGURED (py "danger");; mret None
       else
         try_except
           (text ← generate_product_description form_product_name form_keywords form_tone;
            mret (Some text))
           (fun e =>
              logging_exception LOG_GENERATION_ERROR e;;
              flash MSG_SOMETHING_WENT_WRONG (py "danger");;
              mret None));
    mret {| template := py "index.html";
            tones := TONE_STYLES;
            generated_text := generated;
            product_name := form_product_name;
            keywords := form_keywords;
            selected_tone := form_tone |}
  else
    mret {| template := py "index.html";
            tones := TONE_STYLES;
            generated_text := None;
            product_name := [];
            keywords := [];
            selected_tone := py "professional" |}.

(** The application handling a sequence of requests, one after the
    other. *)
Fixpoint serve (requests : list Request) : M (list Page) :=
  match requests with
  | [] => mret []
  | r :: rest =>
      page ← index r;
      pages ← serve rest;
      mret (page :: pages)
  end.

End App.

(** ** Start-up configuration *)

(** The module-level statements that read the environment (after
    [load_dotenv()] has merged the [.env] file into it):
    [app.config["SECRET_KEY"] = os.environ.get("FLASK_SECRET_KEY", "change-me-in-production")],
    [OPENAI_API_KEY = os.environ.get("OPENAI_API_KEY")] and the
    [logging.warning] issued when that value is false.  The construction
    of the client object belongs to the client library and is not part
    of the model. *)
Record Startup : Type := mkStartup {
  SECRET_KEY : pystr;
  api_key : option pystr;
  startup_warnings : list pystr
}.

Definition MSG_KEY_NOT_SET : pystr :=
  py "OPENAI_API_KEY is not set. The app will run, but API calls will fail.".

Definition startup (environ : gmap pystr pystr) : Startup :=
  let secret := dict_get environ (py "FLASK_SECRET_KEY") (py "change-me-in-production") in
  let key := environ !! py "OPENAI_API_KEY" in
  {| SECRET_KEY := secret;
     api_key := key;
     startup_warnings := if negb (key_configured key) then [MSG_KEY_NOT_SET] else [] |}.

(** ** Vocabulary of the statements *)

(** The comprehension read as the spec words it: trim every segment,
    then drop the empty ones. *)
Definition trim_and_drop_empty (parts : list pystr) : list pystr :=
  filter (λ k : pystr, k ≠ []) (strip <$> parts).

(** The values of [TONE_STYLES], in the order of [tone_keys]. *)
Definition tone_definitions : list ToneDefinition :=
  [Tones.casual; Tones.professional; Tones.enthusiastic; Tones.technical; Tones.luxury].

(** The request the generator sends for its three arguments. *)
Definition request_for (product_name keywords tone_key : pystr) : ChatRequest :=
  chat_request product_name keywords (dict_get TONE_STYLES tone_key Tones.professional).

(** The three fields [index] reads from a submitted form. *)
Definition submitted_name (request : Request) : pystr :=
  strip (form_get (form request) (py "product_name") []).
Definition submitted_keywords (request : Request) : pystr :=
  strip (form_get (form request) (py "keywords") []).
Definition submitted_tone (request : Request) : pystr :=
  form_get (form request) (py "tone") (py "professional").

(** The page rendered for a submission, given the generated text. *)
Definition page_for (request : Request) (generated : option pystr) : Page :=
  {| template := py "index.html";
     tones := TONE_STYLES;
     generated_text := generated;
     product_name := submitted_name request;
     keywords := submitted_keywords request;
     selected_tone := submitted_tone request |}.

(** [occurs_in_order fields text]: the fields occur in [text] one after
    the other, without overlap. *)
Fixpoint occurs_in_order (fields : list pystr) (text : pystr) : Prop :=
  match fields with
  | [] => True
  | f :: rest => ∃ before after : pystr,
      text = before ++ f ++ after ∧ occurs_in_order rest after
  end.

(** Two sample endpoints: one that always answers with a single
    candidate, one that always fails. *)
Definition endpoint_answering (text : pystr)
  : list ChatRequest -> ChatRequest -> Outcome ChatCompletion :=
  fun _ _ => Returns {| choices := [ {| message := {| content := Some text |} |} ] |}.

Definition endpoint_failing (e : exn)
  : list ChatRequest -> ChatRequest -> Outcome ChatCompletion :=
  fun _ _ => Raises e.

(** A form submission with the three fields. *)
Definition post (name kws tone : pystr) : Request :=
  {| method := py "POST";
     form := [(py "product_name", name); (py "keywords", kws); (py "tone", tone)] |}.

(** A request goes through to the generator when it is a form
    submission with a product name and the credential is configured. *)
Definition accepted (key : option pystr) (request : Request) : bool :=
  bool_decide (method request = py "POST")
  && truthy (submitted_name request)
  && key_configured key.

(** The request [index] has the generator send for a submission. *)
Definition request_of (request : Request) : ChatRequest :=
  request_for (submitted_name request) (submitted_keywords request)
    (submitted_tone request).

(** The three messages [index] can flash, with their categories. *)
Definition flash_messages : list (pystr * pystr) :=
  [ (MSG_ENTER_PRODUCT_NAME, py "warning");
    (MSG_KEY_NOT_CONFIGURED, py "danger");
    (MSG_SOMETHING_WENT_WRONG, py "danger") ].

(** A keyword of the normalised list is a single segment: non-empty,
    stripped and comma-free. *)
Definition canonical_keyword (k : pystr) : Prop :=
  (comma ∉ k) ∧ (k ≠ []) ∧ (strip k = k).

(** Unfolding the monad operations. *)
Ltac run_monad :=
  repeat first
    [ progress unfold mbind, mret, M_bind, M_ret, raise, try_except,
        flash, logging_exception, chat_completions_create, list_index,
        attr_strip
    | progress cbn beta iota ].

(** * Properties *)

(** ** Facts about [split], [join] and [strip] *)

Section StringFacts.

Implicit Types (s seg : pystr) (c sep : N) (parts : list pystr).

Lemma split_not_nil sep s : split sep s ≠ [].
Proof.
  destruct s as [|c s]; simpl; [done|].
  destruct (c =? sep); [done|].
  by destruct (split sep s).
Qed.

(** Joining the segments with the separator gives the string back. *)
Lemma join_split sep s : join [sep] (split sep s) = s.
Proof.
  induction s as [|c s IH]; simpl; [done|].
  pose proof (split_not_nil sep s) as Hne.
  destruct (N.eqb_spec c sep) as [->|Hc];
    destruct (split sep s) as [|seg segs]; try done.
  - simpl in *. by rewrite IH.
  - destruct segs as [|seg' segs]; simpl in *; by rewrite <- IH.
Qed.

(** No segment contains the separator. *)
Lemma split_no_sep sep s : Forall (λ seg, sep ∉ seg) (split sep s).
Proof.
  induction s as [|c s IH]; simpl.
  - constructor; [apply not_elem_of_nil | constructor].
  - destruct (N.eqb_spec c sep) as [->|Hc].
    + constructor; [apply not_elem_of_nil | done].
    + destruct (split sep s) as [|seg segs]; inversion IH; subst.
      * constructor; [|constructor]. by intros [->|?%not_elem_of_nil]%elem_of_cons.
      * constructor; [|done].
        intros [->|?]%elem_of_cons; done.
Qed.

Lemma split_sep_free sep s : sep ∉ s → split sep s = [s].
Proof.
  induction s as [|c s IH]; simpl; [done|].
  intros [Hc Hs]%not_elem_of_cons.
  destruct (N.eqb_spec c sep) as [->|_]; [done|].
  by rewrite IH.
Qed.

Lemma split_app_sep sep s s' :
  sep ∉ s → split sep (s ++ sep :: s') = s :: split sep s'.
Proof.
  induction s as [|c s IH]; simpl.
  - intros _. by rewrite N.eqb_refl.
  - intros [Hc Hs]%not_elem_of_cons.
    destruct (N.eqb_spec c sep) as [->|_]; [done|].
    by rewrite IH.
Qed.

(** [split] undoes [join] on separator-free parts. *)
Lemma split_join sep parts :
  parts ≠ [] → Forall (λ seg, sep ∉ seg) parts →
  split sep (join [sep] parts) = parts.
Proof.
  induction parts as [|p parts IH]; [done|].
  intros _ Hall. inversion Hall as [|? ? Hp Hrest]; subst.
  destruct parts as [|q parts].
  - simpl. by apply split_sep_free.
  - change (join [sep] (p :: q :: parts)) with (p ++ sep :: join [sep] (q :: parts)).
    rewrite split_app_sep by done. by rewrite IH.
Qed.

Lemma blank_nil : blank [].
Proof. constructor. Qed.

Lemma blank_cons c s : blank (c :: s) ↔ isspace c = true ∧ blank s.
Proof. unfold blank. by rewrite Forall_cons. Qed.

Lemma blank_rev s : blank (rev s) ↔ blank s.
Proof.
  split; intros H.
  - rewrite <- (rev_involutive s). by apply Forall_rev.
  - by apply Forall_rev.
Qed.

Lemma lstrip_blank s : lstrip s = [] ↔ blank s.
Proof.
  induction s as [|c s IH]; simpl.
  - split; [intros _; apply blank_nil | done].
  - rewrite blank_cons. destruct (isspace c); [|split; [done|by intros [? _]]].
    rewrite IH. split; [by intros ? | by intros [_ ?]].
Qed.

Lemma lstrip_head s c t : lstrip s = c :: t → isspace c = false.
Proof.
  induction s as [|a s IH]; simpl; [done|].
  destruct (isspace a) eqn:Ha; [done|]. by intros [= <- _].
Qed.

Lemma blank_lstrip s : blank (lstrip s) ↔ blank s.
Proof.
  induction s as [|c s IH]; simpl; [done|].
  destruct (isspace c) eqn:Hc; [|done].
  rewrite blank_cons, IH. split; [by intros ? | by intros [_ ?]].
Qed.

Lemma lstrip_idemp s : lstrip (lstrip s) = lstrip s.
Proof.
  induction s as [|c s IH]; simpl; [done|].
  destruct (isspace c) eqn:Hc; [done|]. simpl. by rewrite Hc.
Qed.

Lemma lstrip_snoc s c : isspace c = false → lstrip (s ++ [c]) = lstrip s ++ [c].
Proof.
  intros Hc. induction s as [|a s IH]; simpl; [by rewrite Hc|].
  by destruct (isspace a).
Qed.

Lemma rstrip_cons c s : isspace c = false → rstrip (c :: s) = c :: rstrip s.
Proof.
  intros Hc. unfold rstrip. simpl.
  by rewrite lstrip_snoc, rev_app_distr.
Qed.

Lemma rstrip_idemp s : rstrip (rstrip s) = rstrip s.
Proof. unfold rstrip. by rewrite rev_involutive, lstrip_idemp. Qed.

(** [strip] yields the empty string exactly on whitespace-only input. *)
Lemma strip_nil_iff s : strip s = [] ↔ blank s.
Proof.
  unfold strip, rstrip.
  rewrite <- blank_lstrip, <- blank_rev, <- lstrip_blank.
  split; [|by intros ->].
  intros H. apply (f_equal (@rev N)) in H. by rewrite rev_involutive in H.
Qed.

Lemma strip_blank s : blank s → strip s = [].
Proof. apply strip_nil_iff. Qed.

(** A stripped string is already stripped. *)
Lemma strip_idemp s : strip (strip s) = strip s.
Proof.
  unfold strip. destruct (lstrip s) as [|c t] eqn:E; [done|].
  pose proof (lstrip_head _ _ _ E) as Hc.
  rewrite rstrip_cons by done. simpl. rewrite Hc.
  by rewrite rstrip_cons, rstrip_idemp.
Qed.

(** A non-empty stripped string is not whitespace-only. *)
Lemma strip_not_blank s : strip s ≠ [] → ¬ blank (strip s).
Proof.
  intros Hne Hb. apply Hne. rewrite <- strip_idemp. by apply strip_blank.
Qed.

Lemma truthy_true s : truthy s = true ↔ s ≠ [].
Proof. by destruct s. Qed.

Lemma truthy_false s : truthy s = false ↔ s = [].
Proof. by destruct s. Qed.

Lemma isspace_comma : isspace comma = false.
Proof. reflexivity. Qed.

End StringFacts.

(** ** Keyword normalisation *)

Section Keywords.

Implicit Types (keywords s : pystr) (parts : list pystr).

Lemma comprehension_trim_and_drop parts :
  flat_map (fun k => if truthy (strip k) then [strip k] else []) parts
  = trim_and_drop_empty parts.
Proof.
  unfold trim_and_drop_empty.
  induction parts as [|k ks IH]; [done|].
  cbn [flat_map fmap list_fmap]. rewrite IH.
  destruct (strip k) as [|c t] eqn:E; simpl.
  - by rewrite filter_cons_False by (by intros H).
  - by rewrite filter_cons_True.
Qed.

Lemma keyword_list_spec keywords :
  keyword_list keywords = trim_and_drop_empty (split comma keywords).
Proof. apply comprehension_trim_and_drop. Qed.

Lemma keyword_list_join parts :
  Forall (λ seg : pystr, comma ∉ seg) parts →
  keyword_list (join [comma] parts) = trim_and_drop_empty parts.
Proof.
  intros Hfree. rewrite keyword_list_spec.
  destruct parts as [|p parts]; [done|].
  by rewrite split_join.
Qed.

Lemma keyword_list_elem keywords k :
  k ∈ keyword_list keywords → k ≠ [] ∧ ¬ blank k ∧ strip k = k.
Proof.
  rewrite keyword_list_spec. unfold trim_and_drop_empty.
  rewrite list_elem_of_filter, list_elem_of_fmap.
  intros [Hne (seg & -> & _)].
  split; [done|]. split; [by apply strip_not_blank | apply strip_idemp].
Qed.

Lemma trim_and_drop_nil parts :
  trim_and_drop_empty parts = [] ↔ Forall blank parts.
Proof.
  unfold trim_and_drop_empty.
  induction parts as [|k ks IH]; [done|].
  cbn [fmap list_fmap]. rewrite filter_cons, Forall_cons, <- IH, <- strip_nil_iff.
  case_decide as Hk; [|tauto].
  split; [done | by intros [? _]].
Qed.

Lemma blank_segments sep s :
  isspace sep = false →
  Forall blank (split sep s) ↔ Forall (λ c, c = sep ∨ isspace c = true) s.
Proof.
  intros Hsep. induction s as [|c s IH]; simpl.
  - split; intros _; [constructor | repeat constructor].
  - pose proof (split_not_nil sep s) as Hne.
    rewrite Forall_cons, <- IH.
    destruct (N.eqb_spec c sep) as [->|Hc].
    + rewrite Forall_cons. split; [intros [_ ?]; by split; [left|] |].
      intros [_ ?]. split; [apply blank_nil | done].
    + destruct (split sep s) as [|seg segs]; [done|].
      rewrite !Forall_cons, blank_cons.
      split; [intros [[? ?] ?]; by split; [right|] |].
      intros [[?|?] [? ?]]; done.
Qed.

Lemma keyword_list_nil_iff keywords :
  keyword_list keywords = []
  ↔ Forall (λ c, c = comma ∨ isspace c = true) keywords.
Proof.
  rewrite keyword_list_spec, trim_and_drop_nil.
  apply blank_segments, isspace_comma.
Qed.

Lemma keyword_str_placeholder keywords :
  keyword_list keywords = [] → keyword_str keywords = py "None".
Proof. unfold keyword_str. by intros ->. Qed.

End Keywords.

(** C1. Keyword normalisation splits the raw string on commas (the
    segments are comma-free and joining them with commas restores the
    input), trims each segment and drops the empty ones, keeping order
    and duplicates: on comma-free parts joined by commas the result is
    the trimmed non-empty parts in the same order.  No element of the
    result is empty or whitespace-only (each is already trimmed).  The
    result is empty exactly when the input consists of commas and
    whitespace only, and then the keyword clause of the composed prompt
    is the literal [None]. *)
Theorem C1_keyword_normalization (keywords : pystr) :
  (join [comma] (split comma keywords) = keywords
   ∧ Forall (λ seg : pystr, comma ∉ seg) (split comma keywords))
  ∧ keyword_list keywords = filter (λ k : pystr, k ≠ []) (strip <$> split comma keywords)
  ∧ (∀ parts : list pystr,
       Forall (λ seg : pystr, comma ∉ seg) parts →
       keyword_list (join [comma] parts) = filter (λ k : pystr, k ≠ []) (strip <$> parts))
  ∧ Forall (λ k : pystr, k ≠ [] ∧ ¬ blank k ∧ strip k = k) (keyword_list keywords)
  ∧ (keyword_list keywords = []
     ↔ Forall (λ c, c = comma ∨ isspace c = true) keywords)
  ∧ (keyword_list keywords = [] →
     keyword_str keywords = py "None"
     ∧ ∀ (product_name : pystr) (tone : ToneDefinition),
         messages (chat_request product_name keywords tone)
         = [ (py "system", system_message);
             (py "user", user_message product_name tone (py "None")) ]).
Proof.
  split; [split; [apply join_split | apply split_no_sep]|].
  split; [apply keyword_list_spec|].
  split; [intros parts; apply keyword_list_join|].
  split; [apply Forall_forall; intros k; apply keyword_list_elem|].
  split; [apply keyword_list_nil_iff|].
  intros Hnil. pose proof (keyword_str_placeholder _ Hnil) as Hstr.
  split; [done|]. intros product_name tone. simpl. by rewrite Hstr.
Qed.

(** C1 at [" , ,, "] (no keyword: the clause is [None]) and at
    ["b, a ,,b"] (order and the duplicate are kept). *)
Lemma C1_keyword_normalization_witness :
  keyword_str (py " , ,, ") = py "None"
  ∧ keyword_list (py "b, a ,,b") = [py "b"; py "a"; py "b"].
Proof.
  split.
  - apply (C1_keyword_normalization (py " , ,, ")). reflexivity.
  - destruct (C1_keyword_normalization (py "b, a ,,b")) as (_ & -> & _).
    reflexivity.
Defined.

(** ** Tone resolution *)

Section ToneFacts.

Implicit Types (tone_key : pystr) (w : World).

(** The table read key by key. *)
Lemma TONE_STYLES_lookup tone_key :
  TONE_STYLES !! tone_key =
    if decide (py "casual" = tone_key) then Some Tones.casual
    else if decide (py "professional" = tone_key) then Some Tones.professional
    else if decide (py "enthusiastic" = tone_key) then Some Tones.enthusiastic
    else if decide (py "technical" = tone_key) then Some Tones.technical
    else if decide (py "luxury" = tone_key) then Some Tones.luxury
    else None.
Proof.
  unfold TONE_STYLES. rewrite !lookup_insert, lookup_empty.
  repeat case_decide; done.
Qed.

Lemma TONE_STYLES_professional :
  TONE_STYLES !! py "professional" = Some Tones.professional.
Proof. by rewrite TONE_STYLES_lookup. Qed.

Lemma TONE_STYLES_unknown tone_key :
  tone_key ∉ tone_keys → TONE_STYLES !! tone_key = None.
Proof.
  intros Hk. rewrite TONE_STYLES_lookup.
  repeat case_decide; try done; subst; exfalso; apply Hk;
    unfold tone_keys; rewrite !elem_of_cons; tauto.
Qed.

Lemma TONE_STYLES_known tone_key :
  tone_key ∈ tone_keys → is_Some (TONE_STYLES !! tone_key).
Proof.
  unfold tone_keys. rewrite !elem_of_cons, elem_of_nil, TONE_STYLES_lookup.
  intros H. repeat case_decide; try done; exfalso; intuition congruence.
Qed.

(** The subscript for the default never fails, so tone resolution is
    the dictionary lookup with [professional] as the fallback. *)
Lemma lookup_tone_returns tone_key w :
  lookup_tone tone_key w
  = (Returns (dict_get TONE_STYLES tone_key Tones.professional), w).
Proof.
  unfold lookup_tone, getitem. by rewrite TONE_STYLES_professional.
Qed.

Lemma lookup_tone_unknown tone_key w :
  tone_key ∉ tone_keys →
  lookup_tone tone_key w = (Returns Tones.professional, w).
Proof.
  intros Hk. rewrite lookup_tone_returns. unfold dict_get.
  by rewrite TONE_STYLES_unknown.
Qed.

End ToneFacts.

(** C2. Tone resolution never raises and leaves the world untouched; for
    every identifier (unknown ones and the empty string included) it
    returns one of the five definitions of the table, each with a label
    and an instruction; an identifier of the table resolves to its own
    entry, and every other identifier resolves to [professional]. *)
Theorem C2_tone_lookup_total (tone_key : pystr) (w : World) :
  ∃ tone : ToneDefinition,
    lookup_tone tone_key w = (Returns tone, w)
    ∧ tone ∈ tone_definitions
    ∧ (label tone ≠ [] ∧ instruction tone ≠ [])
    ∧ (∀ i : nat, tone_keys !! i = Some tone_key → tone_definitions !! i = Some tone)
    ∧ (tone_key ∉ tone_keys → tone = Tones.professional).
Proof.
  exists (dict_get TONE_STYLES tone_key Tones.professional).
  split; [apply lookup_tone_returns|].
  unfold dict_get. rewrite TONE_STYLES_lookup.
  assert (Hidx : ∀ i : nat, tone_keys !! i = Some tone_key → (i < 5)%nat).
  { intros i Hi. by apply lookup_lt_Some in Hi. }
  repeat case_decide; subst; simpl;
    (split; [set_solver|]); (split; [done|]); split;
    try (intros i Hi; pose proof (Hidx i Hi);
         do 5 (destruct i as [|i]; [by inversion Hi|]); lia).
  all: try done.
  all: intros []; set_solver.
Qed.

(** C2 is used here at an identifier that is not in the table and at the
    empty identifier. *)
Lemma C2_tone_lookup_total_witness :
  lookup_tone (py "unknown_tone_xyz") empty_world = (Returns Tones.professional, empty_world)
  ∧ lookup_tone [] empty_world = (Returns Tones.professional, empty_world).
Proof.
  split.
  - destruct (C2_tone_lookup_total (py "unknown_tone_xyz") empty_world)
      as (tone & Hrun & _ & _ & _ & Hdefault).
    rewrite Hrun, Hdefault; [done|].
    unfold tone_keys. rewrite !elem_of_cons, elem_of_nil.
    intros [?|[?|[?|[?|[?|[]]]]]]; discriminate.
  - destruct (C2_tone_lookup_total [] empty_world)
      as (tone & Hrun & _ & _ & _ & Hdefault).
    rewrite Hrun, Hdefault; [done|].
    unfold tone_keys. rewrite !elem_of_cons, elem_of_nil.
    intros [?|[?|[?|[?|[?|[]]]]]]; discriminate.
Defined.

(** ** The generator and the route handler *)

Section AppFacts.

Variable OPENAI_API_KEY : option pystr.
Variable endpoint : list ChatRequest -> ChatRequest -> Outcome ChatCompletion.

Implicit Types (product_name keywords tone_key : pystr) (w : World)
  (request : Request).

(** One run of the generator, case by case on what the endpoint
    answers. *)
Lemma generate_unfold product_name keywords tone_key w :
  generate_product_description endpoint product_name keywords tone_key w =
    let req := request_for product_name keywords tone_key in
    match endpoint (api_calls w) req with
    | Raises e => (Raises e, with_call req w)
    | Returns response =>
        match choices response with
        | [] => (Raises IndexError, with_call req w)
        | first :: _ =>
            match content (message first) with
            | None => (Raises AttributeError, with_call req w)
            | Some text => (Returns (strip text), with_call req w)
            end
        end
    end.
Proof.
  unfold generate_product_description, request_for.
  unfold mbind at 1, M_bind. rewrite lookup_tone_returns.
  run_monad.
  destruct (endpoint _ _) as [response|e]; [|done].
  destruct (choices response) as [|first rest]; simpl; [done|].
  by destruct (content (message first)).
Qed.

(** The generator always reaches the endpoint, exactly once. *)
Lemma generate_calls_endpoint product_name keywords tone_key w :
  (generate_product_description endpoint product_name keywords tone_key w).2
  = with_call (request_for product_name keywords tone_key) w.
Proof.
  rewrite generate_unfold. cbn zeta.
  destruct (endpoint _ _) as [response|e]; [|done].
  destruct (choices response) as [|first rest]; [done|].
  by destruct (content (message first)).
Qed.

(** Rejected submission: no product name. *)
Lemma index_no_name request w :
  method request = py "POST" →
  submitted_name request = [] →
  index OPENAI_API_KEY endpoint request w
  = (Returns (page_for request None),
     with_flash MSG_ENTER_PRODUCT_NAME (py "warning") w).
Proof.
  intros Hm Hn. unfold index, page_for, submitted_keywords, submitted_tone, submitted_name in *.
  rewrite bool_decide_eq_true_2 by done. cbn zeta. rewrite Hn.
  by run_monad.
Qed.

(** Rejected submission: no credential. *)
Lemma index_no_key request w :
  method request = py "POST" →
  submitted_name request ≠ [] →
  key_configured OPENAI_API_KEY = false →
  index OPENAI_API_KEY endpoint request w
  = (Returns (page_for request None),
     with_flash MSG_KEY_NOT_CONFIGURED (py "danger") w).
Proof.
  intros Hm Hn%truthy_true Hk. unfold index, page_for, submitted_keywords, submitted_tone, submitted_name in *.
  rewrite bool_decide_eq_true_2 by done. cbn zeta. rewrite Hn, Hk.
  by run_monad.
Qed.

(** Accepted submission: the generator runs inside [try]. *)
Lemma index_generates request w :
  method request = py "POST" →
  submitted_name request ≠ [] →
  key_configured OPENAI_API_KEY = true →
  index OPENAI_API_KEY endpoint request w =
    match generate_product_description endpoint (submitted_name request)
            (submitted_keywords request) (submitted_tone request) w with
    | (Returns text, w1) => (Returns (page_for request (Some text)), w1)
    | (Raises e, w1) =>
        (Returns (page_for request None),
         with_flash MSG_SOMETHING_WENT_WRONG (py "danger")
           (with_log {| log_format := LOG_GENERATION_ERROR;
                        log_arg := e; log_exc_info := e |} w1))
    end.
Proof.
  intros Hm Hn%truthy_true Hk. unfold index, page_for, submitted_keywords, submitted_tone, submitted_name in *.
  rewrite bool_decide_eq_true_2 by done. cbn zeta. rewrite Hn, Hk.
  cbn [negb]. unfold mbind at 1, M_bind. unfold try_except.
  unfold mbind at 1, M_bind.
  destruct (generate_product_description _ _ _ _ w) as [[text|e] w1];
    by run_monad.
Qed.

(** Any other method renders the empty form. *)
Lemma index_not_post request w :
  method request ≠ py "POST" →
  index OPENAI_API_KEY endpoint request w
  = (Returns {| template := py "index.html"; tones := TONE_STYLES;
                generated_text := None; product_name := [];
                keywords := []; selected_tone := py "professional" |}, w).
Proof.
  intros Hm. unfold index. by rewrite bool_decide_eq_false_2.
Qed.

End AppFacts.

(** ** Validation and configuration checks *)

(** C5. A submission whose product name is empty or whitespace-only
    (or missing) never reaches the generator: the endpoint sees no call,
    nothing is logged, no text is produced, and the only effect is the
    warning asking for a product name. *)
Theorem C5_empty_product_name
    (key : option pystr)
    (endpoint : list ChatRequest -> ChatRequest -> Outcome ChatCompletion)
    (request : Request) (w : World) :
  method request = py "POST" →
  blank (form_get (form request) (py "product_name") []) →
  ∃ (page : Page) (w' : World),
    index key endpoint request w = (Returns page, w')
    ∧ api_calls w' = api_calls w
    ∧ log_records w' = log_records w
    ∧ flashes w' = flashes w ++ [(py "Please enter a product name.", py "warning")]
    ∧ generated_text page = None.
Proof.
  intros Hpost Hblank%strip_blank.
  eexists _, _. split; [by apply index_no_name|]. done.
Qed.

(** C5 at a submission whose product name is three spaces, with a
    credential present and an endpoint that would answer. *)
Lemma C5_empty_product_name_witness :
  ∃ (page : Page) (w' : World),
    index (Some (py "sk-test")) (endpoint_answering (py "text"))
      (post (py "   ") (py "a, b") (py "casual")) empty_world
    = (Returns page, w')
    ∧ api_calls w' = []
    ∧ log_records w' = []
    ∧ flashes w' = [(py "Please enter a product name.", py "warning")]
    ∧ generated_text page = None.
Proof.
  apply (C5_empty_product_name (Some (py "sk-test")) (endpoint_answering (py "text"))
           (post (py "   ") (py "a, b") (py "casual")) empty_world).
  - reflexivity.
  - repeat constructor.
Defined.

Section NoCredential.

Variable OPENAI_API_KEY : option pystr.
Variable endpoint : list ChatRequest -> ChatRequest -> Outcome ChatCompletion.
Hypothesis no_key : key_configured OPENAI_API_KEY = false.

(** Without a credential no request of any kind reaches the
    generator. *)
Lemma index_without_key (request : Request) (w : World) :
  ∃ (page : Page) (w' : World),
    index OPENAI_API_KEY endpoint request w = (Returns page, w')
    ∧ generated_text page = None
    ∧ api_calls w' = api_calls w.
Proof.
  destruct (decide (method request = py "POST")) as [Hpost|Hget].
  - destruct (decide (submitted_name request = [])) as [Hn|Hn].
    + eexists _, _. split; [by apply index_no_name|done].
    + eexists _, _. split; [by apply index_no_key|done].
  - eexists _, _. split; [by apply index_not_post|done].
Qed.

Lemma serve_without_key (requests : list Request) (w : World) :
  ∃ (pages : list Page) (w' : World),
    serve OPENAI_API_KEY endpoint requests w = (Returns pages, w')
    ∧ length pages = length requests
    ∧ Forall (λ page, generated_text page = None) pages
    ∧ api_calls w' = api_calls w.
Proof.
  revert w. induction requests as [|r rest IH]; intros w.
  - exists [], w. by repeat split.
  - destruct (index_without_key r w) as (page & w1 & Hidx & Hnone & Hcalls).
    destruct (IH w1) as (pages & w2 & Hserve & Hlen & Hall & Hcalls').
    exists (page :: pages), w2.
    split; [|split; [simpl; by rewrite Hlen | split; [by constructor | congruence]]].
    cbn [serve]. unfold mbind at 1, M_bind. rewrite Hidx.
    unfold mbind at 1, M_bind. by rewrite Hserve.
Qed.

End NoCredential.

(** C6. With the credential absent ([None], or the empty string), a
    submission with a product name gets the configuration message and
    the generator is not called (the endpoint sees nothing and no text
    is produced); and over any sequence of requests, whatever the
    endpoint would have answered, every page comes back without
    generated text and the endpoint is never called. *)
Theorem C6_missing_credential
    (key : option pystr)
    (endpoint : list ChatRequest -> ChatRequest -> Outcome ChatCompletion) :
  key_configured key = false →
  (∀ (request : Request) (w : World),
     method request = py "POST" →
     ¬ blank (form_get (form request) (py "product_name") []) →
     ∃ (page : Page) (w' : World),
       index key endpoint request w = (Returns page, w')
       ∧ api_calls w' = api_calls w
       ∧ flashes w' = flashes w ++ [(MSG_KEY_NOT_CONFIGURED, py "danger")]
       ∧ generated_text page = None)
  ∧ (∀ (requests : list Request) (w : World),
       ∃ (pages : list Page) (w' : World),
         serve key endpoint requests w = (Returns pages, w')
         ∧ length pages = length requests
         ∧ Forall (λ page, generated_text page = None) pages
         ∧ api_calls w' = api_calls w).
Proof.
  intros Hkey. split.
  - intros request w Hpost Hname.
    eexists _, _. split; [apply index_no_key; try done|done].
    unfold submitted_name. by rewrite strip_nil_iff.
  - intros requests w. by apply serve_without_key.
Qed.

(** C6 with [OPENAI_API_KEY] unset, an endpoint that would answer, and
    the same submission made twice. *)
Lemma C6_missing_credential_witness :
  ∃ (pages : list Page) (w' : World),
    serve None (endpoint_answering (py "text"))
      [post (py "Desk Lamp") [] (py "luxury"); post (py "Desk Lamp") [] (py "luxury")]
      empty_world
    = (Returns pages, w')
    ∧ length pages = 2%nat
    ∧ Forall (λ page, generated_text page = None) pages
    ∧ api_calls w' = [].
Proof.
  assert (Hkey : key_configured None = false) by reflexivity.
  destruct (C6_missing_credential None (endpoint_answering (py "text")) Hkey)
    as [_ Hserve].
  apply (Hserve [post (py "Desk Lamp") [] (py "luxury");
                 post (py "Desk Lamp") [] (py "luxury")] empty_world).
Defined.

(** ** Failure translation and response extraction *)

(** C3. [index] itself never raises.  Whenever the generator raises an
    exception [e] for an accepted submission (whatever [e] is: a failure
    of the endpoint, a response without candidates, a candidate without
    text), the page carries no generated text, the log gains one record
    holding [e], and the user sees one fixed message that does not
    depend on [e].  A page shows a text only if the generator returned
    exactly that text, and then nothing is flashed or logged. *)
Theorem C3_failure_translation
    (key : option pystr)
    (endpoint : list ChatRequest -> ChatRequest -> Outcome ChatCompletion)
    (request : Request) (w : World) :
  ∃ (page : Page) (w' : World),
    index key endpoint request w = (Returns page, w')
    ∧ (∀ (e : exn) (w1 : World),
         method request = py "POST" →
         submitted_name request ≠ [] →
         key_configured key = true →
         generate_product_description endpoint (submitted_name request)
           (submitted_keywords request) (submitted_tone request) w = (Raises e, w1) →
         page = page_for request None
         ∧ generated_text page = None
         ∧ log_records w' = log_records w
             ++ [{| log_format := LOG_GENERATION_ERROR; log_arg := e; log_exc_info := e |}]
         ∧ flashes w' = flashes w ++ [(MSG_SOMETHING_WENT_WRONG, py "danger")])
    ∧ (∀ text : pystr,
         generated_text page = Some text →
         generate_product_description endpoint (submitted_name request)
           (submitted_keywords request) (submitted_tone request) w = (Returns text, w')
         ∧ flashes w' = flashes w
         ∧ log_records w' = log_records w).
Proof.
  destruct (decide (method request = py "POST")) as [Hpost|Hget];
    [|eexists _, _; split; [by apply index_not_post|split; [done|by intros ? [=]]]].
  destruct (decide (submitted_name request = [])) as [Hn|Hn];
    [eexists _, _; split; [by apply index_no_name|split; [done|by intros ? [=]]]|].
  destruct (key_configured key) eqn:Hkey;
    [|eexists _, _; split; [by apply index_no_key|split; [done|by intros ? [=]]]].
  pose proof (generate_calls_endpoint endpoint (submitted_name request)
                (submitted_keywords request) (submitted_tone request) w) as Hw.
  pose proof (index_generates key endpoint request w Hpost Hn Hkey) as Hidx.
  destruct (generate_product_description _ _ _ _ w) as [[text|e] w1] eqn:Hgen;
    simpl in Hw; subst w1; eexists _, _; (split; [exact Hidx|]).
  - split; [by intros ? ? _ _ _ [=]|]. by intros ? [= <-].
  - split; [|by intros ? [=]]. by intros ? ? _ _ _ [= <- <-].
Qed.

(** C3 at a submission for which the endpoint fails with an
    authentication error: the detail text of the error reaches the log
    and nothing but the fixed message reaches the user. *)
Lemma C3_failure_translation_witness :
  let e := ApiError AuthFailure (py "401 invalid api key sk-test") in
  ∃ (page : Page) (w' : World),
    index (Some (py "sk-test")) (endpoint_failing e)
      (post (py "Desk Lamp") (py "led") (py "casual")) empty_world
    = (Returns page, w')
    ∧ generated_text page = None
    ∧ log_records w'
      = [{| log_format := LOG_GENERATION_ERROR; log_arg := e; log_exc_info := e |}]
    ∧ flashes w' = [(MSG_SOMETHING_WENT_WRONG, py "danger")].
Proof.
  intros e.
  destruct (C3_failure_translation (Some (py "sk-test")) (endpoint_failing e)
              (post (py "Desk Lamp") (py "led") (py "casual")) empty_world)
    as (page & w' & Hidx & Hfail & _).
  exists page, w'. split; [exact Hidx|].
  destruct (Hfail e (with_call (request_for (py "Desk Lamp") (py "led") (py "casual"))
                       empty_world))
    as (_ & Hnone & Hlog & Hflash).
  - reflexivity.
  - discriminate.
  - reflexivity.
  - rewrite generate_unfold. reflexivity.
  - done.
Defined.

(** C9 (as the code has it). When the endpoint answers with at least
    one candidate, only the first one is looked at, whatever the others
    are, and the one effect is the recorded call: if the first candidate
    has text content the generator returns exactly that text stripped;
    if its content is [None] the generator raises [AttributeError] and
    returns no text. *)
Theorem C9_first_candidate
    (endpoint : list ChatRequest -> ChatRequest -> Outcome ChatCompletion)
    (product_name keywords tone_key : pystr) (w : World)
    (first : Choice) (others : list Choice) :
  endpoint (api_calls w) (request_for product_name keywords tone_key)
    = Returns {| choices := first :: others |} →
  generate_product_description endpoint product_name keywords tone_key w
  = (match content (message first) with
     | Some text => Returns (strip text)
     | None => Raises AttributeError
     end,
     with_call (request_for product_name keywords tone_key) w).
Proof.
  intros Hresp. rewrite generate_unfold. cbn zeta.
  rewrite Hresp. cbn [choices]. by destruct (content (message first)).
Qed.

(** C9 at a response with two candidates. *)
Lemma C9_first_candidate_witness :
  generate_product_description
    (fun _ _ => Returns {| choices :=
       [ {| message := {| content := Some (py "  Bright and warm. ") |} |};
         {| message := {| content := Some (py "second") |} |} ] |})
    (py "Desk Lamp") (py "led") (py "casual") empty_world
  = (Returns (py "Bright and warm."),
     with_call (request_for (py "Desk Lamp") (py "led") (py "casual")) empty_world).
Proof.
  apply (C9_first_candidate _ (py "Desk Lamp") (py "led") (py "casual") empty_world
           {| message := {| content := Some (py "  Bright and warm. ") |} |}
           [ {| message := {| content := Some (py "second") |} |} ]).
  reflexivity.
Defined.

(** C9 as stated fails: the response below has a non-empty candidate
    list, but its first candidate has no text content; the generator
    raises [AttributeError] instead of returning a text, and the text of
    the second candidate is not used. *)
Lemma C9_counterexample :
  let response :=
    {| choices :=
         [ {| message := {| content := None |} |};
           {| message := {| content := Some (py "second") |} |} ] |} in
  choices response ≠ []
  ∧ generate_product_description (fun _ _ => Returns response)
      (py "Desk Lamp") (py "led") (py "casual") empty_world
    = (Raises AttributeError,
       with_call (request_for (py "Desk Lamp") (py "led") (py "casual")) empty_world)
  ∧ ∀ text : pystr,
      (generate_product_description (fun _ _ => Returns response)
         (py "Desk Lamp") (py "led") (py "casual") empty_world).1
      ≠ Returns text.
Proof.
  intros response. split; [done|].
  assert (generate_product_description (fun _ _ => Returns response)
            (py "Desk Lamp") (py "led") (py "casual") empty_world
          = (Raises AttributeError,
             with_call (request_for (py "Desk Lamp") (py "led") (py "casual"))
               empty_world)) as Hrun
    by (by rewrite generate_unfold).
  split; [exact Hrun|]. intros text. by rewrite Hrun.
Qed.

(** ** What the generator sends *)

Section Sent.

Variable OPENAI_API_KEY : option pystr.
Variable endpoint : list ChatRequest -> ChatRequest -> Outcome ChatCompletion.

(** An accepted submission sends one request, built from the trimmed
    name, the trimmed keyword string and the tone identifier as
    submitted. *)
Lemma index_sends (request : Request) (w : World) :
  method request = py "POST" →
  submitted_name request ≠ [] →
  key_configured OPENAI_API_KEY = true →
  api_calls (index OPENAI_API_KEY endpoint request w).2
  = api_calls w ++ [request_for (submitted_name request)
                      (submitted_keywords request) (submitted_tone request)].
Proof.
  intros Hpost Hn Hkey. rewrite index_generates by done.
  pose proof (generate_calls_endpoint endpoint (submitted_name request)
                (submitted_keywords request) (submitted_tone request) w) as Hw.
  destruct (generate_product_description _ _ _ _ w) as [[text|e] w1];
    simpl in *; by subst w1.
Qed.

End Sent.

Lemma user_message_name_inj (n1 n2 : pystr) (tone : ToneDefinition) (kw : pystr) :
  user_message n1 tone kw = user_message n2 tone kw → n1 = n2.
Proof.
  unfold user_message. intros H.
  apply app_inv_head in H. by apply app_inv_tail in H.
Qed.

Lemma tone_keys_stripped (tone_key : pystr) :
  tone_key ∈ tone_keys → strip tone_key = tone_key.
Proof.
  unfold tone_keys. rewrite !elem_of_cons, elem_of_nil.
  intros [->|[->|[->|[->|[->|[]]]]]]; reflexivity.
Qed.

Lemma form_get_absent (fields : list (pystr * pystr)) (key dflt : pystr) :
  (∀ v, (key, v) ∉ fields) → form_get fields key dflt = dflt.
Proof.
  induction fields as [|[k v] rest IH]; simpl; [done|].
  intros Habs. case_bool_decide as Hk.
  - subst k. destruct (Habs v). by left.
  - apply IH. intros v' Hin. apply (Habs v'). by right.
Qed.

(** C10. The keyword input ["None"] and any keyword input made of commas
    and whitespace only (the empty string included) give the same
    request: the same system message and the same user message. *)
Theorem C10_none_literal_collision
    (product_name tone_key keywords : pystr) :
  Forall (λ c, c = comma ∨ isspace c = true) keywords →
  request_for product_name (py "None") tone_key
  = request_for product_name keywords tone_key
  ∧ messages (request_for product_name (py "None") tone_key)
    = messages (request_for product_name keywords tone_key).
Proof.
  intros Hblank%keyword_list_nil_iff%keyword_str_placeholder.
  assert (request_for product_name (py "None") tone_key
          = request_for product_name keywords tone_key) as Heq; [|by rewrite Heq].
  unfold request_for, chat_request. rewrite Hblank.
  by replace (keyword_str (py "None")) with (py "None") by reflexivity.
Qed.

(** C10 at the empty keyword string and at [" , "]. *)
Lemma C10_none_literal_collision_witness :
  request_for (py "Desk Lamp") (py "None") (py "luxury")
  = request_for (py "Desk Lamp") [] (py "luxury")
  ∧ request_for (py "Desk Lamp") (py "None") (py "luxury")
    = request_for (py "Desk Lamp") (py " , ") (py "luxury").
Proof.
  split.
  - apply (C10_none_literal_collision (py "Desk Lamp") (py "luxury") []).
    constructor.
  - apply (C10_none_literal_collision (py "Desk Lamp") (py "luxury") (py " , ")).
    repeat constructor; (by left) || (by right).
Defined.

(** C4. The user message is the second of the two messages sent.  It
    is, character for character, the product name, the label of the
    resolved tone, its instruction and the keyword string (the joined
    keywords, or [None] when there is none), each after its own heading,
    followed by the four directive lines: match the tone, weave the
    keywords in, benefits over features, speak to online shoppers.  So
    these eight texts occur in the message in that order.  In the
    scenario of the spec the message is the text written out below. *)
Theorem C4_user_message_order (product_name keywords tone_key : pystr) :
  let tone := dict_get TONE_STYLES tone_key Tones.professional in
  let msg := user_message product_name tone (keyword_str keywords) in
  messages (request_for product_name keywords tone_key)
    = [(py "system", system_message); (py "user", msg)]
  ∧ msg
    = py "Product name: " ++ product_name ++ [newline]
      ++ py "Tone: " ++ label tone ++ [newline]
      ++ py "Tone Instructions: " ++ instruction tone ++ [newline]
      ++ py "Keywords to incorporate naturally: " ++ keyword_str keywords
      ++ [newline; newline]
      ++ py "Write a compelling product description that:" ++ [newline]
      ++ py "- Matches the tone described above" ++ [newline]
      ++ py "- Naturally weaves in the keywords without sounding forced" ++ [newline]
      ++ py "- Focuses on benefits, not just features" ++ [newline]
      ++ py "- Speaks directly to retail customers shopping online" ++ [newline]
  ∧ occurs_in_order
      [ product_name; label tone; instruction tone; keyword_str keywords;
        py "- Matches the tone described above" ++ [newline];
        py "- Naturally weaves in the keywords without sounding forced" ++ [newline];
        py "- Focuses on benefits, not just features" ++ [newline];
        py "- Speaks directly to retail customers shopping online" ++ [newline] ] msg
  ∧ (keyword_str keywords = py "None"
     ∨ keyword_list keywords ≠ []
       ∧ keyword_str keywords = join (py ", ") (keyword_list keywords))
  ∧ (∃ scenario : pystr,
       messages (request_for (py "Wireless Earbuds")
                   (py "noise cancelling, 20h battery") (py "enthusiastic"))
         = [(py "system", system_message); (py "user", scenario)]
       ∧ scenario
         = py "Product name: Wireless Earbuds" ++ [newline]
           ++ py "Tone: Enthusiastic" ++ [newline]
           ++ py "Tone Instructions: Write in an energetic and upbeat tone that builds excitement. Use strong, positive language that makes the product feel irresistible."
           ++ [newline]
           ++ py "Keywords to incorporate naturally: noise cancelling, 20h battery"
           ++ [newline; newline]
           ++ py "Write a compelling product description that:" ++ [newline]
           ++ py "- Matches the tone described above" ++ [newline]
           ++ py "- Naturally weaves in the keywords without sounding forced" ++ [newline]
           ++ py "- Focuses on benefits, not just features" ++ [newline]
           ++ py "- Speaks directly to retail customers shopping online" ++ [newline]
       ∧ occurs_in_order
           [ py "Wireless Earbuds"; py "Enthusiastic";
             py "Write in an energetic and upbeat tone that builds excitement. "
             ++ py "Use strong, positive language that makes the product feel irresistible.";
             py "noise cancelling, 20h battery";
             py "- Matches the tone described above" ++ [newline];
             py "- Naturally weaves in the keywords without sounding forced" ++ [newline];
             py "- Focuses on benefits, not just features" ++ [newline];
             py "- Speaks directly to retail customers shopping online" ++ [newline] ]
           scenario).
Proof.
  assert (Hord : ∀ (name : pystr) (tone : ToneDefinition) (kw : pystr),
             occurs_in_order
               [ name; label tone; instruction tone; kw;
                 py "- Matches the tone described above" ++ [newline];
                 py "- Naturally weaves in the keywords without sounding forced"
                 ++ [newline];
                 py "- Focuses on benefits, not just features" ++ [newline];
                 py "- Speaks directly to retail customers shopping online"
                 ++ [newline] ]
               (user_message name tone kw)).
  { intros name tone kw.
    unfold user_message, directive_match_tone, directive_weave_keywords,
      directive_benefits, directive_online_shoppers.
    cbn [occurs_in_order].
    exists (py "Product name: "); eexists; split; [reflexivity|].
    exists ([newline] ++ py "Tone: "); eexists; split; [reflexivity|].
    exists ([newline] ++ py "Tone Instructions: "); eexists; split; [reflexivity|].
    exists ([newline] ++ py "Keywords to incorporate naturally: ");
      eexists; split; [reflexivity|].
    exists ([newline; newline] ++ py "Write a compelling product description that:"
            ++ [newline]); eexists; split; [reflexivity|].
    exists []; eexists; split; [reflexivity|].
    exists []; eexists; split; [reflexivity|].
    exists [], []; split; [reflexivity|done]. }
  intros tone msg. split; [done|]. split; [reflexivity|].
  split; [apply Hord|]. split.
  - unfold keyword_str. destruct (keyword_list keywords); [by left | by right].
  - assert (dict_get TONE_STYLES (py "enthusiastic") Tones.professional
            = Tones.enthusiastic) as Htone
      by (unfold dict_get; by rewrite TONE_STYLES_lookup).
    assert (keyword_str (py "noise cancelling, 20h battery")
            = py "noise cancelling, 20h battery") as Hkw by reflexivity.
    eexists. split; [reflexivity|].
    rewrite Htone, Hkw. split; [reflexivity|].
    apply (Hord (py "Wireless Earbuds") Tones.enthusiastic
             (py "noise cancelling, 20h battery")).
Qed.

(** C7 (as the code has it). The generator interpolates the product
    name exactly as it receives it: the request it sends is the one
    built from the untouched name, whose user message starts with
    [Product name: ], the name and a newline, and two different names
    give two different messages.  Trimming is done by [index]: for an
    accepted submission the request is built from the stripped form
    field. *)
Theorem C7_product_name_verbatim
    (endpoint : list ChatRequest -> ChatRequest -> Outcome ChatCompletion)
    (product_name keywords tone_key : pystr) (w : World) :
  let tone := dict_get TONE_STYLES tone_key Tones.professional in
  api_calls (generate_product_description endpoint product_name keywords tone_key w).2
    = api_calls w ++ [chat_request product_name keywords tone]
  ∧ (∃ rest : pystr, ∀ name : pystr,
       user_message name tone (keyword_str keywords)
       = py "Product name: " ++ name ++ [newline] ++ rest)
  ∧ (∀ name : pystr,
       user_message name tone (keyword_str keywords)
       = user_message product_name tone (keyword_str keywords) →
       name = product_name)
  ∧ (∀ (key : option pystr) (request : Request),
       method request = py "POST" →
       ¬ blank (form_get (form request) (py "product_name") []) →
       key_configured key = true →
       api_calls (index key endpoint request w).2
       = api_calls w
         ++ [chat_request (strip (form_get (form request) (py "product_name") []))
               (submitted_keywords request)
               (dict_get TONE_STYLES (submitted_tone request) Tones.professional)]).
Proof.
  intros tone. split; [by rewrite generate_calls_endpoint|].
  split; [eexists; intros name; reflexivity|].
  split; [intros name; apply user_message_name_inj|].
  intros key request Hpost Hname Hkey.
  rewrite index_sends; [done | done | | done].
  unfold submitted_name. by rewrite strip_nil_iff.
Qed.

(** C7 at the submission [" Lamp "]: the request carries [Lamp]. *)
Lemma C7_product_name_verbatim_witness :
  api_calls (index (Some (py "sk-test")) (endpoint_answering (py "text"))
               (post (py " Lamp ") [] (py "professional")) empty_world).2
  = [chat_request (py "Lamp") [] Tones.professional].
Proof.
  destruct (C7_product_name_verbatim (endpoint_answering (py "text"))
              [] [] [] empty_world) as (_ & _ & _ & Hidx).
  rewrite (Hidx (Some (py "sk-test")) (post (py " Lamp ") [] (py "professional"))).
  - unfold dict_get. rewrite TONE_STYLES_lookup. reflexivity.
  - reflexivity.
  - intros Hb. by inversion Hb as [|? ? _ Hrest]; inversion Hrest.
  - reflexivity.
Defined.

(** C7 as stated fails: called with [" Lamp "], the generator sends a
    user message whose first line is [Product name:  Lamp ], not
    [Product name: Lamp]. *)
Lemma C7_counterexample :
  ∃ sent : pystr,
    api_calls (generate_product_description (endpoint_answering (py "text"))
                 (py " Lamp ") [] (py "professional") empty_world).2
    = [ {| model := py "gpt-4o-mini";
           messages := [(py "system", system_message); (py "user", sent)];
           temperature := 8 # 10;
           max_tokens := 300 |} ]
    ∧ strip (py " Lamp ") = py "Lamp"
    ∧ (∃ rest, sent = py "Product name:  Lamp " ++ [newline] ++ rest)
    ∧ ¬ (∃ rest, sent = py "Product name: Lamp" ++ [newline] ++ rest).
Proof.
  eexists. split.
  - rewrite generate_calls_endpoint. unfold request_for, dict_get.
    rewrite TONE_STYLES_lookup. reflexivity.
  - split; [reflexivity|]. split; [eexists; reflexivity|].
    by intros [rest [=]].
Qed.

(** C8 (as the code has it). For an accepted submission the request is
    built from the stripped product name, the stripped keyword string
    and the tone identifier exactly as submitted, [professional] when
    the form has no tone field.  The identifier is never trimmed: one
    with leading or trailing whitespace is not a key of the table and
    resolves to the default. *)
Theorem C8_trimmed_fields
    (key : option pystr)
    (endpoint : list ChatRequest -> ChatRequest -> Outcome ChatCompletion)
    (request : Request) (w : World) :
  method request = py "POST" →
  ¬ blank (form_get (form request) (py "product_name") []) →
  key_configured key = true →
  api_calls (index key endpoint request w).2
    = api_calls w
      ++ [request_for (strip (form_get (form request) (py "product_name") []))
            (strip (form_get (form request) (py "keywords") []))
            (form_get (form request) (py "tone") (py "professional"))]
  ∧ (∀ (tone_key : pystr) (w0 : World),
       strip tone_key ≠ tone_key →
       lookup_tone tone_key w0 = (Returns Tones.professional, w0))
  ∧ ((∀ v : pystr, (py "tone", v) ∉ form request) →
     lookup_tone (form_get (form request) (py "tone") (py "professional")) w
     = (Returns Tones.professional, w)).
Proof.
  intros Hpost Hname Hkey. split; [|split].
  - rewrite index_sends; [done | done | | done].
    unfold submitted_name. by rewrite strip_nil_iff.
  - intros tone_key w0 Hstrip. apply lookup_tone_unknown.
    by intros ?%tone_keys_stripped.
  - intros Habsent. rewrite form_get_absent by done.
    rewrite lookup_tone_returns. unfold dict_get.
    by rewrite TONE_STYLES_professional.
Qed.

(** C8 at a submission with padded name and keywords and no tone field. *)
Lemma C8_trimmed_fields_witness :
  api_calls (index (Some (py "sk-test")) (endpoint_answering (py "text"))
               {| method := py "POST";
                  form := [(py "product_name", py " Lamp "); (py "keywords", py " led ")] |}
               empty_world).2
  = [request_for (py "Lamp") (py "led") (py "professional")].
Proof.
  apply (C8_trimmed_fields (Some (py "sk-test")) (endpoint_answering (py "text"))
           {| method := py "POST";
              form := [(py "product_name", py " Lamp "); (py "keywords", py " led ")] |}
           empty_world).
  - reflexivity.
  - intros Hb. by inversion Hb as [|? ? _ Hrest]; inversion Hrest.
  - reflexivity.
Defined.

(** C8 as stated fails: the identifier [" casual"] resolves to
    [professional], not to [casual], and a submission carrying it sends
    the [professional] label and instruction. *)
Lemma C8_counterexample :
  strip (py " casual") = py "casual"
  ∧ lookup_tone (py "casual") empty_world = (Returns Tones.casual, empty_world)
  ∧ lookup_tone (py " casual") empty_world = (Returns Tones.professional, empty_world)
  ∧ Tones.professional ≠ Tones.casual
  ∧ api_calls (index (Some (py "sk-test")) (endpoint_answering (py "text"))
                 (post (py "Lamp") [] (py " casual")) empty_world).2
    = [chat_request (py "Lamp") [] Tones.professional].
Proof.
  split; [reflexivity|].
  split; [rewrite lookup_tone_returns; unfold dict_get;
          by rewrite TONE_STYLES_lookup|].
  split; [rewrite lookup_tone_returns; unfold dict_get;
          by rewrite TONE_STYLES_lookup|].
  split; [discriminate|].
  rewrite index_sends; [| reflexivity | discriminate | reflexivity ].
  unfold request_for, dict_get. by rewrite TONE_STYLES_lookup.
Qed.

(** * Further properties of the generator and the route handler *)

(** ** Keyword strings: composition and normal form *)

Section KeywordAlgebra.

Implicit Types (s a b ws k : pystr) (c sep : N).

Lemma split_app_sep_any sep a b :
  split sep (a ++ sep :: b) = split sep a ++ split sep b.
Proof.
  induction a as [|c a IH]; simpl.
  - by rewrite N.eqb_refl.
  - rewrite IH. pose proof (split_not_nil sep a) as Hne.
    destruct (c =? sep); [done|].
    by destruct (split sep a).
Qed.

Lemma keyword_list_comma a b :
  keyword_list (a ++ comma :: b) = keyword_list a ++ keyword_list b.
Proof. unfold keyword_list. by rewrite split_app_sep_any, flat_map_app. Qed.

Lemma space_not_comma c : isspace c = true → (c =? comma) = false.
Proof.
  intros Hc. apply N.eqb_neq. intros ->. by rewrite isspace_comma in Hc.
Qed.

Lemma strip_lead_space c s : isspace c = true → strip (c :: s) = strip s.
Proof. intros Hc. unfold strip. simpl. by rewrite Hc. Qed.

Lemma keyword_list_lead_space c s :
  isspace c = true → keyword_list (c :: s) = keyword_list s.
Proof.
  intros Hc. unfold keyword_list. simpl. rewrite space_not_comma by done.
  pose proof (split_not_nil comma s) as Hne.
  destruct (split comma s) as [|seg segs]; [done|].
  simpl. by rewrite strip_lead_space.
Qed.

Lemma keyword_list_lstrip s : keyword_list (lstrip s) = keyword_list s.
Proof.
  induction s as [|c s IH]; simpl; [done|].
  destruct (isspace c) eqn:Hc; [|done].
  by rewrite keyword_list_lead_space.
Qed.

Lemma lstrip_blank_app b s : blank b → lstrip (b ++ s) = lstrip s.
Proof.
  induction b as [|c b IH]; simpl; [done|].
  intros [-> Hb]%blank_cons. by apply IH.
Qed.

Lemma lstrip_app_not_blank s ws : ¬ blank s → lstrip (s ++ ws) = lstrip s ++ ws.
Proof.
  induction s as [|c s IH]; simpl.
  - intros []. apply blank_nil.
  - intros Hnb. destruct (isspace c) eqn:Hc; [|done].
    apply IH. intros Hb. apply Hnb. by apply blank_cons.
Qed.

Lemma rstrip_app_blank s ws : blank ws → rstrip (s ++ ws) = rstrip s.
Proof.
  intros Hws. unfold rstrip. rewrite rev_app_distr.
  by rewrite lstrip_blank_app by (by apply blank_rev).
Qed.

Lemma strip_app_blank s ws : blank ws → strip (s ++ ws) = strip s.
Proof.
  intros Hws. destruct (decide (blank s)) as [Hs|Hs].
  - rewrite !strip_blank; [done | done |]. by apply Forall_app.
  - unfold strip. rewrite lstrip_app_not_blank by done.
    by apply rstrip_app_blank.
Qed.

Lemma blank_no_comma ws : blank ws → comma ∉ ws.
Proof.
  intros Hws Hin. unfold blank in Hws. rewrite Forall_forall in Hws.
  specialize (Hws _ Hin). by rewrite isspace_comma in Hws.
Qed.

(** Appending to a string extends its last segment. *)
Lemma split_app_free sep s ws :
  sep ∉ ws →
  ∃ (init : list pystr) (last : pystr),
    split sep s = init ++ [last] ∧ split sep (s ++ ws) = init ++ [last ++ ws].
Proof.
  intros Hws. induction s as [|c s (init & last & Hs & Hsw)]; simpl.
  - exists [], []. split; [done|]. by rewrite split_sep_free.
  - rewrite Hs, Hsw. destruct (c =? sep).
    + by exists ([] :: init), last.
    + destruct init as [|i init]; simpl.
      * by exists [], (c :: last).
      * by exists ((c :: i) :: init), last.
Qed.

Lemma keyword_list_app_blank s ws :
  blank ws → keyword_list (s ++ ws) = keyword_list s.
Proof.
  intros Hws. unfold keyword_list.
  destruct (split_app_free comma s ws (blank_no_comma _ Hws))
    as (init & last & -> & ->).
  rewrite !flat_map_app. simpl. by rewrite strip_app_blank.
Qed.

Lemma lstrip_decompose s : ∃ ws, blank ws ∧ s = ws ++ lstrip s.
Proof.
  induction s as [|c s (ws & Hws & Hs)]; simpl.
  - exists []. split; [apply blank_nil | done].
  - destruct (isspace c) eqn:Hc.
    + exists (c :: ws). split; [by apply blank_cons|]. simpl. by rewrite <- Hs.
    + exists []. split; [apply blank_nil | done].
Qed.

Lemma rstrip_decompose s : ∃ ws, blank ws ∧ s = rstrip s ++ ws.
Proof.
  destruct (lstrip_decompose (rev s)) as (ws & Hws & Hs).
  exists (rev ws). split; [by apply blank_rev|].
  unfold rstrip. rewrite <- rev_app_distr, <- Hs. by rewrite rev_involutive.
Qed.

Lemma keyword_list_rstrip s : keyword_list (rstrip s) = keyword_list s.
Proof.
  destruct (rstrip_decompose s) as (ws & Hws & Hs).
  rewrite Hs at 2. by rewrite keyword_list_app_blank.
Qed.

Lemma keyword_list_strip s : keyword_list (strip s) = keyword_list s.
Proof. unfold strip. by rewrite keyword_list_rstrip, keyword_list_lstrip. Qed.

Lemma keyword_str_strip s : keyword_str (strip s) = keyword_str s.
Proof. unfold keyword_str. by rewrite keyword_list_strip. Qed.

Lemma elem_of_lstrip c s : c ∈ lstrip s → c ∈ s.
Proof.
  induction s as [|a s IH]; simpl; [done|].
  destruct (isspace a); [|done]. intros ?%IH. by right.
Qed.

Lemma elem_of_rev c s : c ∈ rev s ↔ c ∈ s.
Proof. by rewrite !list_elem_of_In, <- in_rev. Qed.

Lemma elem_of_strip c s : c ∈ strip s → c ∈ s.
Proof.
  unfold strip, rstrip. rewrite elem_of_rev.
  intros H%elem_of_lstrip. rewrite elem_of_rev in H.
  by apply elem_of_lstrip.
Qed.

Lemma keyword_list_canonical s : Forall canonical_keyword (keyword_list s).
Proof.
  apply Forall_forall. intros k Hk.
  destruct (keyword_list_elem _ _ Hk) as (Hne & _ & Hstrip).
  split; [|done].
  rewrite keyword_list_spec in Hk. unfold trim_and_drop_empty in Hk.
  rewrite list_elem_of_filter, list_elem_of_fmap in Hk.
  destruct Hk as [_ (seg & -> & Hseg)].
  pose proof (split_no_sep comma s) as Hfree. rewrite Forall_forall in Hfree.
  intros Hin%elem_of_strip. by apply (Hfree seg).
Qed.

Lemma keyword_list_single k : canonical_keyword k → keyword_list k = [k].
Proof.
  intros (Hfree & Hne & Hstrip). unfold keyword_list.
  rewrite split_sep_free by done. simpl. rewrite Hstrip.
  by destruct k.
Qed.

Lemma keyword_list_join_canonical (l : list pystr) :
  Forall canonical_keyword l → keyword_list (join (py ", ") l) = l.
Proof.
  induction l as [|k l IH]; [done|].
  intros [Hk Hl]%Forall_cons. destruct l as [|k' l].
  - by apply keyword_list_single.
  - change (join (py ", ") (k :: k' :: l))
      with (k ++ comma :: 32 :: join (py ", ") (k' :: l)).
    rewrite keyword_list_comma, keyword_list_single by done.
    rewrite keyword_list_lead_space by done. by rewrite IH.
Qed.

End KeywordAlgebra.

(** X1. Joining two keyword strings with a comma concatenates their
    keyword lists; in particular a leading or a trailing comma changes
    nothing. *)
Theorem X1_keyword_list_concat (a b : pystr) :
  keyword_list (a ++ [comma] ++ b) = keyword_list a ++ keyword_list b
  ∧ keyword_list ([comma] ++ a) = keyword_list a
  ∧ keyword_list (a ++ [comma]) = keyword_list a.
Proof.
  split; [apply keyword_list_comma|]. split.
  - exact (keyword_list_comma [] a).
  - rewrite (keyword_list_comma a []). apply app_nil_r.
Qed.

(** X2. The keyword string put into the prompt is a normal form:
    normalising it again gives the same string, and when there is at
    least one keyword, splitting it again gives the same keyword list. *)
Theorem X2_keyword_str_normal_form (keywords : pystr) :
  keyword_str (keyword_str keywords) = keyword_str keywords
  ∧ (keyword_list keywords ≠ [] →
     keyword_list (keyword_str keywords) = keyword_list keywords).
Proof.
  pose proof (keyword_list_canonical keywords) as Hcanon.
  unfold keyword_str at 2 3 4.
  destruct (keyword_list keywords) as [|k l] eqn:E; [by split|].
  assert (keyword_list (join (py ", ") (k :: l)) = k :: l) as Hround
    by by apply keyword_list_join_canonical.
  split; [|done]. unfold keyword_str. by rewrite Hround.
Qed.

(** X2 at [" b ,, a,b "]. *)
Lemma X2_keyword_str_normal_form_witness :
  keyword_list (keyword_str (py " b ,, a,b ")) = [py "b"; py "a"; py "b"].
Proof.
  destruct (X2_keyword_str_normal_form (py " b ,, a,b ")) as [_ ->]; done.
Defined.

(** X3. Whitespace around the whole keyword string never reaches the
    endpoint: the generator behaves the same on a keyword string and on
    its stripped form, so the [strip] that [index] applies to the
    keyword field does not alter the request. *)
Theorem X3_keyword_field_strip_redundant
    (endpoint : list ChatRequest -> ChatRequest -> Outcome ChatCompletion)
    (product_name keywords tone_key : pystr) (w : World) :
  generate_product_description endpoint product_name (strip keywords) tone_key w
  = generate_product_description endpoint product_name keywords tone_key w.
Proof.
  rewrite !generate_unfold.
  assert (request_for product_name (strip keywords) tone_key
          = request_for product_name keywords tone_key) as ->; [|done].
  unfold request_for, chat_request. by rewrite keyword_str_strip.
Qed.

(** ** One request through [index] *)

Section IndexEffects.

Variable OPENAI_API_KEY : option pystr.
Variable endpoint : list ChatRequest -> ChatRequest -> Outcome ChatCompletion.

Implicit Types (request : Request) (w : World).

Lemma accepted_true request :
  accepted OPENAI_API_KEY request = true
  ↔ method request = py "POST"
    ∧ submitted_name request ≠ []
    ∧ key_configured OPENAI_API_KEY = true.
Proof.
  unfold accepted.
  rewrite !andb_true_iff, bool_decide_eq_true, truthy_true. tauto.
Qed.

Lemma accepted_false request :
  accepted OPENAI_API_KEY request = false
  ↔ method request ≠ py "POST"
    ∨ submitted_name request = []
    ∨ key_configured OPENAI_API_KEY = false.
Proof.
  unfold accepted.
  rewrite !andb_false_iff, bool_decide_eq_false, truthy_false. tauto.
Qed.

(** What one request does, branch by branch: the page, and what is
    appended to the flashes, the log and the calls. *)
Lemma index_effects request w :
  ∃ (page : Page) (w' : World) (fl : list (pystr * pystr)) (lg : list LogRecord),
    index OPENAI_API_KEY endpoint request w = (Returns page, w')
    ∧ flashes w' = flashes w ++ fl
    ∧ log_records w' = log_records w ++ lg
    ∧ api_calls w' = api_calls w
        ++ (if accepted OPENAI_API_KEY request then [request_of request] else [])
    ∧ (method request = py "POST" → page = page_for request (generated_text page))
    ∧ match generated_text page with
      | Some text =>
          fl = [] ∧ lg = [] ∧ accepted OPENAI_API_KEY request = true
      | None =>
          (if bool_decide (method request = py "POST")
           then ∃ f, fl = [f] ∧ f ∈ flash_messages
           else fl = [])
          ∧ (length lg ≤ if accepted OPENAI_API_KEY request then 1 else 0)%nat
      end.
Proof.
  destruct (decide (method request = py "POST")) as [Hpost|Hget].
  2:{ eexists _, w, [], []. rewrite index_not_post by done.
      assert (accepted OPENAI_API_KEY request = false) as ->
        by (apply accepted_false; by left).
      rewrite !app_nil_r, bool_decide_eq_false_2 by done. by repeat split. }
  rewrite bool_decide_eq_true_2 by done.
  destruct (decide (submitted_name request = [])) as [Hn|Hn].
  { eexists _, _, [_], []. rewrite index_no_name by done.
    assert (accepted OPENAI_API_KEY request = false) as ->
      by (apply accepted_false; by right; left).
    rewrite !app_nil_r. repeat split; try done.
    eexists; split; [done|]. unfold flash_messages. set_solver. }
  destruct (key_configured OPENAI_API_KEY) eqn:Hkey.
  2:{ eexists _, _, [_], []. rewrite index_no_key by done.
      assert (accepted OPENAI_API_KEY request = false) as ->
        by (apply accepted_false; by right; right).
      rewrite !app_nil_r. repeat split; try done.
      eexists; split; [done|]. unfold flash_messages. set_solver. }
  assert (accepted OPENAI_API_KEY request = true) as -> by by apply accepted_true.
  rewrite index_generates by done.
  pose proof (generate_calls_endpoint endpoint (submitted_name request)
                (submitted_keywords request) (submitted_tone request) w) as Hw.
  destruct (generate_product_description _ _ _ _ w) as [[text|e] w1];
    simpl in Hw; subst w1.
  - eexists _, _, [], []. rewrite !app_nil_r. by repeat split.
  - eexists _, _, [_], [_]. repeat split; try done.
    eexists; split; [done|]. unfold flash_messages. set_solver.
Qed.

End IndexEffects.

(** X4. A request reaches the endpoint exactly when it is a form
    submission with a non-blank product name and the credential is
    configured; it then causes exactly one call, whose request is built
    from the stripped name, the stripped keyword string and the tone
    identifier as submitted.  Every other request causes none. *)
Theorem X4_index_calls_iff_accepted
    (key : option pystr)
    (endpoint : list ChatRequest -> ChatRequest -> Outcome ChatCompletion)
    (request : Request) (w : World) :
  (accepted key request = true
   ↔ method request = py "POST"
     ∧ ¬ blank (form_get (form request) (py "product_name") [])
     ∧ key_configured key = true)
  ∧ api_calls (index key endpoint request w).2
    = api_calls w
      ++ (if accepted key request
          then [request_for (strip (form_get (form request) (py "product_name") []))
                  (strip (form_get (form request) (py "keywords") []))
                  (form_get (form request) (py "tone") (py "professional"))]
          else []).
Proof.
  split.
  - rewrite accepted_true. unfold submitted_name. by rewrite strip_nil_iff.
  - destruct (index_effects key endpoint request w)
      as (page & w' & fl & lg & -> & _ & _ & Hcalls & _).
    exact Hcalls.
Qed.

(** X5. Every form submission is answered by exactly one of two things:
    a generated text, with no message flashed, or no text and exactly
    one flashed message, taken from the three the handler knows. *)
Theorem X5_post_text_xor_flash
    (key : option pystr)
    (endpoint : list ChatRequest -> ChatRequest -> Outcome ChatCompletion)
    (request : Request) (w : World) :
  method request = py "POST" →
  ∃ (page : Page) (w' : World),
    index key endpoint request w = (Returns page, w')
    ∧ ((∃ text, generated_text page = Some text) ∧ flashes w' = flashes w
       ∨ generated_text page = None
         ∧ ∃ f, f ∈ flash_messages ∧ flashes w' = flashes w ++ [f]).
Proof.
  intros Hpost.
  destruct (index_effects key endpoint request w)
    as (page & w' & fl & lg & Hidx & Hfl & _ & _ & _ & Hcase).
  exists page, w'. split; [done|].
  rewrite bool_decide_eq_true_2 in Hcase by done.
  destruct (generated_text page) as [text|].
  - left. destruct Hcase as (-> & _). rewrite app_nil_r in Hfl. eauto.
  - right. destruct Hcase as [(f & -> & Hf) _]. eauto.
Qed.

(** X5 at a submission that succeeds and at one without product name. *)
Lemma X5_post_text_xor_flash_witness :
  (∃ (page : Page) (w' : World),
     index (Some (py "sk-test")) (endpoint_answering (py "text"))
       (post (py "Desk Lamp") (py "led") (py "casual")) empty_world = (Returns page, w')
     ∧ ((∃ text, generated_text page = Some text) ∧ flashes w' = []
        ∨ generated_text page = None
          ∧ ∃ f, f ∈ flash_messages ∧ flashes w' = [] ++ [f]))
  ∧ (∃ (page : Page) (w' : World),
       index (Some (py "sk-test")) (endpoint_answering (py "text"))
         (post [] (py "led") (py "casual")) empty_world = (Returns page, w')
       ∧ ((∃ text, generated_text page = Some text) ∧ flashes w' = []
          ∨ generated_text page = None
            ∧ ∃ f, f ∈ flash_messages ∧ flashes w' = [] ++ [f])).
Proof.
  split.
  - apply (X5_post_text_xor_flash (Some (py "sk-test")) (endpoint_answering (py "text"))
             (post (py "Desk Lamp") (py "led") (py "casual")) empty_world).
    reflexivity.
  - apply (X5_post_text_xor_flash (Some (py "sk-test")) (endpoint_answering (py "text"))
             (post [] (py "led") (py "casual")) empty_world).
    reflexivity.
Defined.

(** X6. Whatever happens to a form submission (rejected, failed or
    answered), the page is rendered from [index.html] with the full tone
    table and the submitted values put back into the form: the stripped
    product name, the stripped keyword string and the tone identifier
    exactly as submitted ([professional] when the field is missing). *)
Theorem X6_form_values_preserved
    (key : option pystr)
    (endpoint : list ChatRequest -> ChatRequest -> Outcome ChatCompletion)
    (request : Request) (w : World) :
  method request = py "POST" →
  ∃ (page : Page) (w' : World),
    index key endpoint request w = (Returns page, w')
    ∧ template page = py "index.html"
    ∧ tones page = TONE_STYLES
    ∧ product_name page = strip (form_get (form request) (py "product_name") [])
    ∧ keywords page = strip (form_get (form request) (py "keywords") [])
    ∧ selected_tone page = form_get (form request) (py "tone") (py "professional").
Proof.
  intros Hpost.
  destruct (index_effects key endpoint request w)
    as (page & w' & fl & lg & Hidx & _ & _ & _ & Hpage & _).
  exists page, w'. split; [done|]. by rewrite (Hpage Hpost).
Qed.

(** X6 at a submission whose generation fails. *)
Lemma X6_form_values_preserved_witness :
  ∃ (page : Page) (w' : World),
    index (Some (py "sk-test")) (endpoint_failing (ApiError RequestTimeout []))
      (post (py " Desk Lamp ") (py " led ,") (py "no-such-tone")) empty_world
    = (Returns page, w')
    ∧ template page = py "index.html"
    ∧ tones page = TONE_STYLES
    ∧ product_name page = py "Desk Lamp"
    ∧ keywords page = py "led ,"
    ∧ selected_tone page = py "no-such-tone".
Proof.
  apply (X6_form_values_preserved (Some (py "sk-test"))
           (endpoint_failing (ApiError RequestTimeout []))
           (post (py " Desk Lamp ") (py " led ,") (py "no-such-tone")) empty_world).
  reflexivity.
Defined.

(** ** Sequences of requests *)

Section ServeEffects.

Variable OPENAI_API_KEY : option pystr.
Variable endpoint : list ChatRequest -> ChatRequest -> Outcome ChatCompletion.

Lemma serve_cons (r : Request) (rest : list Request) (w w1 : World) (page : Page) :
  index OPENAI_API_KEY endpoint r w = (Returns page, w1) →
  serve OPENAI_API_KEY endpoint (r :: rest) w
  = match serve OPENAI_API_KEY endpoint rest w1 with
    | (Returns pages, w2) => (Returns (page :: pages), w2)
    | (Raises e, w2) => (Raises e, w2)
    end.
Proof.
  intros Hidx. cbn [serve]. unfold mbind at 1, M_bind. rewrite Hidx.
  unfold mbind at 1, M_bind.
  by destruct (serve OPENAI_API_KEY endpoint rest w1) as [[pages|e] w2].
Qed.

(** The effects of a run: what it appends to the three histories. *)
Lemma serve_effects (requests : list Request) (w : World) :
  ∃ (pages : list Page) (w' : World)
    (fl : list (pystr * pystr)) (lg : list LogRecord),
    serve OPENAI_API_KEY endpoint requests w = (Returns pages, w')
    ∧ length pages = length requests
    ∧ flashes w' = flashes w ++ fl
    ∧ log_records w' = log_records w ++ lg
    ∧ api_calls w' = api_calls w
        ++ (request_of <$> filter (λ r, accepted OPENAI_API_KEY r = true) requests)
    ∧ (length fl ≤ length requests)%nat
    ∧ (length lg
       ≤ length (filter (λ r, accepted OPENAI_API_KEY r = true) requests))%nat.
Proof.
  revert w. induction requests as [|r rest IH]; intros w.
  - exists [], w, [], []. rewrite !app_nil_r. by repeat split.
  - destruct (index_effects OPENAI_API_KEY endpoint r w)
      as (page & w1 & fl1 & lg1 & Hidx & Hfl1 & Hlg1 & Hcl1 & _ & Hcase).
    destruct (IH w1) as (pages & w2 & fl2 & lg2 & Hserve & Hlen & Hfl2 & Hlg2 & Hcl2
                         & Hbfl & Hblg).
    exists (page :: pages), w2, (fl1 ++ fl2), (lg1 ++ lg2).
    rewrite (serve_cons _ _ _ _ _ Hidx), Hserve.
    rewrite Hfl2, Hfl1, Hlg2, Hlg1, Hcl2, Hcl1, <- !app_assoc, !length_app.
    assert (length fl1 ≤ 1
            ∧ length lg1 ≤ (if accepted OPENAI_API_KEY r then 1 else 0))%nat
      as [Hb1 Hb2].
    { destruct (generated_text page).
      - destruct Hcase as (-> & -> & _). simpl. split; lia.
      - destruct Hcase as [Hf Hl]. split; [|done].
        case_bool_decide; [destruct Hf as (f & -> & _)|subst fl1]; simpl; lia. }
    destruct (accepted OPENAI_API_KEY r) eqn:Hacc.
    + rewrite filter_cons_True by done. cbn [fmap list_fmap length app].
      repeat split; try done; simpl; lia.
    + rewrite filter_cons_False by (by rewrite Hacc).
      cbn [length app]. repeat split; try done; simpl; lia.
Qed.

End ServeEffects.

(** X7. Serving a sequence of requests never raises and answers every
    request with a page; the endpoint receives exactly one call for each
    accepted submission, in the order of the submissions, and nothing
    else (no retry after a failure, no call for a rejected request). *)
Theorem X7_serve_call_trace
    (key : option pystr)
    (endpoint : list ChatRequest -> ChatRequest -> Outcome ChatCompletion)
    (requests : list Request) (w : World) :
  ∃ (pages : list Page) (w' : World),
    serve key endpoint requests w = (Returns pages, w')
    ∧ length pages = length requests
    ∧ api_calls w' = api_calls w
        ++ (request_of <$> filter (λ r, accepted key r = true) requests).
Proof.
  destruct (serve_effects key endpoint requests w)
    as (pages & w' & fl & lg & Hserve & Hlen & _ & _ & Hcalls & _).
  by exists pages, w'.
Qed.

(** X8. The three histories only grow: what was flashed, logged and
    sent before a run is a prefix of what is there after it.  A run adds
    at most one flash and at most one call per request, and never more
    log records than calls: every logged failure belongs to a call that
    was made. *)
Theorem X8_serve_history_append_only
    (key : option pystr)
    (endpoint : list ChatRequest -> ChatRequest -> Outcome ChatCompletion)
    (requests : list Request) (w : World) :
  ∃ (pages : list Page) (w' : World),
    serve key endpoint requests w = (Returns pages, w')
    ∧ flashes w `prefix_of` flashes w'
    ∧ log_records w `prefix_of` log_records w'
    ∧ api_calls w `prefix_of` api_calls w'
    ∧ (length (flashes w') ≤ length (flashes w) + length requests)%nat
    ∧ (length (api_calls w') ≤ length (api_calls w) + length requests)%nat
    ∧ (length (log_records w') + length (api_calls w)
       ≤ length (log_records w) + length (api_calls w'))%nat.
Proof.
  destruct (serve_effects key endpoint requests w)
    as (pages & w' & fl & lg & Hserve & _ & Hfl & Hlg & Hcalls & Hbfl & Hblg).
  exists pages, w'. split; [done|].
  pose proof (length_filter (λ r, accepted key r = true) requests) as Hfilter.
  rewrite Hfl, Hlg, Hcalls, !length_app, length_fmap.
  repeat split; try (by eexists); lia.
Qed.

(** ** Outcomes of one generation *)

Section Outcomes.

Variable OPENAI_API_KEY : option pystr.
Variable endpoint : list ChatRequest -> ChatRequest -> Outcome ChatCompletion.

(** An accepted submission whose first candidate has text. *)
Lemma index_success (request : Request) (w : World)
    (first : Choice) (others : list Choice) (text : pystr) :
  accepted OPENAI_API_KEY request = true →
  endpoint (api_calls w) (request_of request) = Returns {| choices := first :: others |} →
  content (message first) = Some text →
  index OPENAI_API_KEY endpoint request w
  = (Returns (page_for request (Some (strip text))), with_call (request_of request) w).
Proof.
  intros (Hpost & Hn & Hkey)%accepted_true Hresp Hfirst.
  rewrite index_generates, generate_unfold by done. cbn zeta.
  fold (request_of request). rewrite Hresp. cbn [choices]. by rewrite Hfirst.
Qed.

End Outcomes.

(** X9. The generator makes exactly one call and passes failures on
    unchanged: an exception of the endpoint is raised as it is, a
    response without candidates raises [IndexError], and a first
    candidate without text raises [AttributeError]; in each case the one
    call has been made and nothing is retried. *)
Theorem X9_generate_failures
    (endpoint : list ChatRequest -> ChatRequest -> Outcome ChatCompletion)
    (product_name keywords tone_key : pystr) (w : World) :
  let req := request_for product_name keywords tone_key in
  let run := generate_product_description endpoint product_name keywords tone_key w in
  run.2 = with_call req w
  ∧ (∀ e, endpoint (api_calls w) req = Raises e → run.1 = Raises e)
  ∧ (∀ response, endpoint (api_calls w) req = Returns response →
       choices response = [] → run.1 = Raises IndexError)
  ∧ (∀ response first others,
       endpoint (api_calls w) req = Returns response →
       choices response = first :: others →
       content (message first) = None → run.1 = Raises AttributeError).
Proof.
  intros req run. split; [apply generate_calls_endpoint|].
  subst run req. rewrite generate_unfold. cbn zeta.
  split; [by intros e ->|]. split.
  - by intros response -> ->.
  - intros response first others -> ->. by intros ->.
Qed.

(** X9 at an endpoint that answers with an empty candidate list. *)
Lemma X9_generate_failures_witness :
  generate_product_description (fun _ _ => Returns {| choices := [] |})
    (py "Desk Lamp") [] (py "casual") empty_world
  = (Raises IndexError, with_call (request_for (py "Desk Lamp") [] (py "casual")) empty_world).
Proof.
  destruct (X9_generate_failures (fun _ _ => Returns {| choices := [] |})
              (py "Desk Lamp") [] (py "casual") empty_world)
    as (Hw & _ & Hempty & _).
  specialize (Hempty {| choices := [] |} eq_refl eq_refl).
  destruct (generate_product_description _ _ _ _ _) as [out w1].
  simpl in *. by subst.
Defined.

(** X10. An accepted submission whose response has a first candidate
    with text is answered with that text stripped; the only effect is
    the one call: nothing is flashed and nothing is logged. *)
Theorem X10_index_success
    (key : option pystr)
    (endpoint : list ChatRequest -> ChatRequest -> Outcome ChatCompletion)
    (request : Request) (w : World)
    (first : Choice) (others : list Choice) (text : pystr) :
  accepted key request = true →
  endpoint (api_calls w) (request_of request) = Returns {| choices := first :: others |} →
  content (message first) = Some text →
  ∃ (page : Page) (w' : World),
    index key endpoint request w = (Returns page, w')
    ∧ generated_text page = Some (strip text)
    ∧ flashes w' = flashes w
    ∧ log_records w' = log_records w
    ∧ api_calls w' = api_calls w ++ [request_of request].
Proof.
  intros Hacc Hresp Hfirst. eexists _, _.
  split; [by eapply index_success|done].
Qed.

(** X10 at a submission answered with padded text. *)
Lemma X10_index_success_witness :
  ∃ (page : Page) (w' : World),
    index (Some (py "sk-test")) (endpoint_answering (py " Bright. "))
      (post (py "Desk Lamp") (py "led") (py "casual")) empty_world
    = (Returns page, w')
    ∧ generated_text page = Some (py "Bright.")
    ∧ flashes w' = []
    ∧ log_records w' = []
    ∧ api_calls w' = [request_for (py "Desk Lamp") (py "led") (py "casual")].
Proof.
  apply (X10_index_success (Some (py "sk-test")) (endpoint_answering (py " Bright. "))
           (post (py "Desk Lamp") (py "led") (py "casual")) empty_world
           {| message := {| content := Some (py " Bright. ") |} |} []
           (py " Bright. ")); reflexivity.
Defined.

(** X11. A completion made of whitespace only is not treated as a
    failure: the page carries the empty string as generated text and no
    message is flashed or logged. *)
Theorem X11_blank_completion
    (key : option pystr)
    (endpoint : list ChatRequest -> ChatRequest -> Outcome ChatCompletion)
    (request : Request) (w : World)
    (first : Choice) (others : list Choice) (text : pystr) :
  accepted key request = true →
  endpoint (api_calls w) (request_of request) = Returns {| choices := first :: others |} →
  content (message first) = Some text →
  blank text →
  ∃ (page : Page) (w' : World),
    index key endpoint request w = (Returns page, w')
    ∧ generated_text page = Some []
    ∧ flashes w' = flashes w
    ∧ log_records w' = log_records w.
Proof.
  intros Hacc Hresp Hfirst Hblank%strip_blank. eexists _, _.
  split; [by eapply index_success|]. simpl. by rewrite Hblank.
Qed.

(** X11 at a completion of two spaces and a newline. *)
Lemma X11_blank_completion_witness :
  ∃ (page : Page) (w' : World),
    index (Some (py "sk-test")) (endpoint_answering [32; 32; 10])
      (post (py "Desk Lamp") (py "led") (py "casual")) empty_world
    = (Returns page, w')
    ∧ generated_text page = Some []
    ∧ flashes w' = []
    ∧ log_records w' = [].
Proof.
  apply (X11_blank_completion (Some (py "sk-test")) (endpoint_answering [32; 32; 10])
           (post (py "Desk Lamp") (py "led") (py "casual")) empty_world
           {| message := {| content := Some [32; 32; 10] |} |} [] [32; 32; 10]);
    try reflexivity.
  repeat constructor.
Defined.

(** X12. A request whose method is not [POST] has no effect at all and
    is answered with the empty form, [professional] selected, whatever
    its form fields, the credential and the endpoint are. *)
Theorem X12_non_post_request
    (key : option pystr)
    (endpoint : list ChatRequest -> ChatRequest -> Outcome ChatCompletion)
    (request : Request) (w : World) :
  method request ≠ py "POST" →
  ∃ page : Page,
    index key endpoint request w = (Returns page, w)
    ∧ generated_text page = None
    ∧ product_name page = []
    ∧ keywords page = []
    ∧ selected_tone page = py "professional"
    ∧ tones page = TONE_STYLES.
Proof.
  intros Hm. eexists. split; [by apply index_not_post|done].
Qed.

(** X12 at a [GET] request that carries form fields. *)
Lemma X12_non_post_request_witness :
  ∃ page : Page,
    index (Some (py "sk-test")) (endpoint_answering (py "text"))
      {| method := py "GET"; form := [(py "product_name", py "Desk Lamp")] |} empty_world
    = (Returns page, empty_world)
    ∧ generated_text page = None
    ∧ product_name page = []
    ∧ keywords page = []
    ∧ selected_tone page = py "professional"
    ∧ tones page = TONE_STYLES.
Proof.
  apply (X12_non_post_request (Some (py "sk-test")) (endpoint_answering (py "text"))
           {| method := py "GET"; form := [(py "product_name", py "Desk Lamp")] |}
           empty_world).
  discriminate.
Defined.

(** ** Start-up *)

(** X13. The credential counts as missing when [OPENAI_API_KEY] is
    unset or set to the empty string.  Start-up then logs its one
    warning, and afterwards no request is ever sent to the endpoint and
    no page carries generated text.  With any non-empty value nothing is
    logged at start-up and a submission is accepted exactly when it has
    a non-blank product name. *)
Theorem X13_startup_credential
    (environ : gmap pystr pystr)
    (endpoint : list ChatRequest -> ChatRequest -> Outcome ChatCompletion) :
  let cfg := startup environ in
  api_key cfg = environ !! py "OPENAI_API_KEY"
  ∧ ((environ !! py "OPENAI_API_KEY" = None
      ∨ environ !! py "OPENAI_API_KEY" = Some ([] : pystr))
     → startup_warnings cfg = [MSG_KEY_NOT_SET]
       ∧ ∀ (requests : list Request) (w : World),
           ∃ (pages : list Page) (w' : World),
             serve (api_key cfg) endpoint requests w = (Returns pages, w')
             ∧ Forall (λ page, generated_text page = None) pages
             ∧ api_calls w' = api_calls w)
  ∧ (∀ key : pystr, environ !! py "OPENAI_API_KEY" = Some key → key ≠ []
     → startup_warnings cfg = []
       ∧ ∀ request : Request,
           accepted (api_key cfg) request = true
           ↔ method request = py "POST"
             ∧ ¬ blank (form_get (form request) (py "product_name") [])).
Proof.
  intros cfg. subst cfg. unfold startup. cbn [api_key startup_warnings].
  split; [done|]. split.
  - intros Hmissing.
    assert (key_configured (environ !! py "OPENAI_API_KEY") = false) as Hkey
      by (destruct Hmissing as [H | H]; by rewrite H).
    rewrite Hkey. split; [done|]. intros requests w.
    destruct (serve_without_key _ endpoint Hkey requests w)
      as (pages & w' & Hserve & _ & Hnone & Hcalls).
    by exists pages, w'.
  - intros key Hset Hkey. rewrite Hset.
    assert (key_configured (Some key) = true) as Hconf by by destruct key.
    rewrite Hconf. split; [done|]. intros request.
    rewrite accepted_true, Hconf. unfold submitted_name. rewrite strip_nil_iff.
    tauto.
Qed.

(** X13 with [OPENAI_API_KEY] set to the empty string. *)
Lemma X13_startup_credential_witness :
  startup_warnings (startup {[ py "OPENAI_API_KEY" := [] ]}) = [MSG_KEY_NOT_SET]
  ∧ ∃ (pages : list Page) (w' : World),
      serve (api_key (startup {[ py "OPENAI_API_KEY" := [] ]}))
        (endpoint_answering (py "text"))
        [post (py "Desk Lamp") [] (py "luxury")] empty_world
      = (Returns pages, w')
      ∧ Forall (λ page, generated_text page = None) pages
      ∧ api_calls w' = [].
Proof.
  destruct (X13_startup_credential {[ py "OPENAI_API_KEY" := [] ]}
              (endpoint_answering (py "text")))
    as (_ & Hmissing & _).
  destruct Hmissing as [Hwarn Hserve].
  - right. apply lookup_singleton_eq.
  - split; [exact Hwarn|].
    apply (Hserve [post (py "Desk Lamp") [] (py "luxury")] empty_world).
Defined.

(** ** Unknown tones *)

(** X14. An identifier that is not a key of the tone table is
    indistinguishable from [professional]: the generator sends the same
    request and gives the same outcome for both. *)
Theorem X14_unknown_tone_is_professional
    (endpoint : list ChatRequest -> ChatRequest -> Outcome ChatCompletion)
    (product_name keywords tone_key : pystr) (w : World) :
  tone_key ∉ tone_keys →
  generate_product_description endpoint product_name keywords tone_key w
  = generate_product_description endpoint product_name keywords (py "professional") w.
Proof.
  intros Hunknown. rewrite !generate_unfold.
  assert (request_for product_name keywords tone_key
          = request_for product_name keywords (py "professional")) as ->; [|done].
  unfold request_for, dict_get.
  by rewrite TONE_STYLES_unknown, TONE_STYLES_professional.
Qed.

(** X14 at the identifier [Casual], which differs from the key [casual]
    by its capital letter. *)
Lemma X14_unknown_tone_is_professional_witness :
  generate_product_description (endpoint_answering (py "text"))
    (py "Desk Lamp") [] (py "Casual") empty_world
  = generate_product_description (endpoint_answering (py "text"))
      (py "Desk Lamp") [] (py "professional") empty_world.
Proof.
  apply (X14_unknown_tone_is_professional (endpoint_answering (py "text"))
           (py "Desk Lamp") [] (py "Casual") empty_world).
  unfold tone_keys. rewrite !elem_of_cons, elem_of_nil.
  intros [?|[?|[?|[?|[?|[]]]]]]; discriminate.
Defined.
